(** * Service worker of the medication tracker: cache lifecycle, log relay,
      network interception, push pipeline and notification clicks.

    Two versions of the worker script are in the repository:
    - [src/public/sw.js]      (cache tag [medication-tracker-v3]), module [V3];
    - [src/unnamed/part_000]  (cache tag [medication-tracker-v4]), module [V4].

    The script is event-handler glue over host APIs (cache storage, client
    enumeration, notifications, network).  The embedding is a reader + state
    + exception monad: the host's behaviour is an explicit environment
    ([Host]), what the worker changes or causes is an explicit state
    ([State]: cache buckets, counters, displayed notifications and the
    chronological trace of effects), and a JavaScript [throw] or a rejected
    promise is the [Throw] completion.

    Promise chains and [await] are written in direct style.  A promise that
    the source drops without awaiting it (every call of [sendLogToApp]) is run
    to completion at the point of the call; in [V3], where that promise has no
    rejection handler, a rejection is recorded as [UnhandledRejection] and is
    not raised to the caller.  Strings are byte strings (UTF-8), on which
    substring containment agrees with that of JavaScript's UTF-16 strings.

    The message listener and [sendInitialLog] take no part in the properties
    below and are not embedded; the activate listener only schedules
    [sendInitialLog] with [setTimeout]. *)

From Stdlib Require Import SpecFloat DecimalString Ascii.
From stdpp Require Import base strings list gmap.

Open Scope string_scope.
Set Warnings "-register-all".

(** ** JavaScript values *)

(** Values as [JSON.parse] and object literals of the script build them.
    Numbers are IEEE doubles ([spec_float]); an object is its list of own
    properties in insertion order. *)
Inductive value : Type :=
| VUndefined
| VNull
| VBool (b : bool)
| VNum (n : spec_float)
| VStr (s : string)
| VArr (xs : list value)
| VObj (props : list (string * value)).

(** Error objects thrown by the host APIs ([TypeError], [DOMException], ...):
    the script reads only [name] and [message]. *)
Record JSError : Type := mkError { name : string; message : string }.

(** Completion of a computation: a normal value, or a thrown error / rejected
    promise. *)
Inductive Completion (A : Type) : Type :=
| Normal (a : A)
| Throw (e : JSError).
Arguments Normal {A} a.
Arguments Throw {A} e.

(** [ToBoolean]: the falsy values are undefined, null, false, +0, -0, NaN and
    the empty string. *)
Definition ToBoolean (v : value) : bool :=
  match v with
  | VUndefined | VNull => false
  | VBool b => b
  | VNum (S754_zero _) | VNum S754_nan => false
  | VNum _ => true
  | VStr s => negb (String.eqb s "")
  | VArr _ | VObj _ => true
  end.

(** [a || b] with an effect-free right operand. *)
Definition js_or (a b : value) : value := if ToBoolean a then a else b.

(** Own property lookup in an object's property list. *)
Fixpoint own_property (props : list (string * value)) (key : string) : option value :=
  match props with
  | [] => None
  | (k, v) :: rest => if String.eqb k key then Some v else own_property rest key
  end.

(** [v.key] for the keys the script reads ([title], [body], [data]): reading a
    property of null or undefined throws a TypeError, a missing property (and
    any such property of a primitive or an array) is undefined. *)
Definition Get (v : value) (key : string) : Completion value :=
  match v with
  | VUndefined =>
      Throw (mkError "TypeError" ("Cannot read properties of undefined (reading '" ++ key ++ "')"))
  | VNull =>
      Throw (mkError "TypeError" ("Cannot read properties of null (reading '" ++ key ++ "')"))
  | VObj props => Normal (default VUndefined (own_property props key))
  | _ => Normal VUndefined
  end.

(** Decimal rendering of a natural number inside a template literal. *)
Definition nat_to_string (n : nat) : string := NilEmpty.string_of_uint (Nat.to_uint n).

(** [String.prototype.includes]: [needle] occurs in [hay] as a substring. *)
Fixpoint includes (hay needle : string) : bool :=
  String.prefix needle hay
  || match hay with
     | EmptyString => false
     | String _ rest => includes rest needle
     end.

(** ** The host *)

Inductive ClientType : Type := window | worker | sharedworker.

Global Instance ClientType_eq_dec : EqDecision ClientType.
Proof. solve_decision. Defined.

(** A client of the worker.  [cl_post] and [cl_focus] are the host's answers
    for this client: [Some e] when [postMessage] throws [e], respectively when
    [focus()] rejects with [e]. *)
Record Client : Type := mkClient {
  cl_id : nat;
  cl_url : string;
  cl_type : ClientType;
  cl_controlled : bool;
  cl_post : option JSError;
  cl_focus : option JSError
}.

Record Response : Type := mkResponse { r_status : nat; r_body : string }.

(** [Response.ok]: status in the range 200-299. *)
Definition r_ok (r : Response) : bool :=
  ((200 <=? r_status r) && (r_status r <=? 299))%nat.

(** Arguments of the console methods. *)
Inductive carg : Type :=
| AVal (v : value)
| AErr (e : JSError).

(** What the worker does to the outside, in chronological order.
    [LogEvent] marks an invocation [sendLogToApp(logType, message, data)];
    [ShowNotification] is a render request, whether the host accepts it or
    not; [PostMessage] is a message handed to a client. *)
Inductive Effect : Type :=
| ConsoleLog (args : list carg)
| ConsoleError (args : list carg)
| LogEvent (logType message : string) (data : value)
| PostMessage (client : nat) (msg : value)
| UnhandledRejection (e : JSError)
| SkipWaiting
| ClientsClaim
| SetTimeout (callback : string) (ms : nat)
| NetFetch (url : string)
| ShowNotification (title options : value)
| NotificationClose
| Focus (client : nat)
| OpenWindow (url : string).

(** The environment: everything the host answers.  [h_notify n] is the outcome
    of the [n]-th call of [showNotification] and [h_net n url] the outcome of
    the [n]-th network fetch (counted from 0), so that a host may fail once
    and succeed later.  [h_clients] are the clients the host enumerates to
    the worker, in its order; a browser enumerates the clients of the
    worker's own origin only (see [listed]). *)
Record Host : Type := mkHost {
  h_origin : string;
  h_permission : string;
  h_now : string;
  h_clients : list Client;
  h_matchAll : option JSError;
  h_notify : nat → option JSError;
  h_net : nat → string → Completion Response;
  h_cache_open : option JSError;
  h_cache_keys : option JSError;
  h_cache_match : option JSError;
  h_cache_delete : string → option JSError;
  h_openWindow : option JSError
}.

(** Cache storage: the buckets in creation order, each a map from request URL
    to response. *)
Record State : Type := mkState {
  s_caches : list (string * gmap string Response);
  s_fetches : nat;
  s_notifs : nat;
  s_shown : list (value * value);
  s_trace : list Effect
}.

Definition set_caches (c : list (string * gmap string Response)) (s : State) : State :=
  mkState c (s_fetches s) (s_notifs s) (s_shown s) (s_trace s).

Definition add_trace (es : list Effect) (s : State) : State :=
  mkState (s_caches s) (s_fetches s) (s_notifs s) (s_shown s) (s_trace s ++ es).

(** ** The monad *)

Definition M (A : Type) : Type := Host → State → Completion A * State.

Global Instance M_ret : MRet M := λ A a _ s, (Normal a, s).

Global Instance M_bind : MBind M := λ A B f m h s,
  match m h s with
  | (Normal a, s') => f a h s'
  | (Throw e, s') => (Throw e, s')
  end.

Definition throw {A} (e : JSError) : M A := λ _ s, (Throw e, s).

(** [try { m } catch (e) { handler e }]; effects of [m] before the throw stay. *)
Definition try_catch {A} (m : M A) (handler : JSError → M A) : M A := λ h s,
  match m h s with
  | (Normal a, s') => (Normal a, s')
  | (Throw e, s') => handler e h s'
  end.

(** A promise chain started and dropped: its rejection is unhandled. *)
Definition detached (m : M unit) : M unit :=
  try_catch m (λ e _ s, (Normal (), add_trace [UnhandledRejection e] s)).

Definition lift {A} (c : Completion A) : M A := λ _ s, (c, s).

Definition ask {A} (f : Host → A) : M A := λ h s, (Normal (f h), s).

Definition modify (f : State → State) : M unit := λ _ s, (Normal (), f s).

Definition emit (e : Effect) : M unit := λ _ s, (Normal (), add_trace [e] s).

Definition console_log (args : list carg) : M unit := emit (ConsoleLog args).
Definition console_error (args : list carg) : M unit := emit (ConsoleError args).

(** [array.forEach(f)] with the 0-based index; a throw of [f] ends the loop. *)
Fixpoint forEach_from {A} (i : nat) (f : A → nat → M unit) (xs : list A) : M unit :=
  match xs with
  | [] => mret ()
  | x :: rest => f x i ;; forEach_from (S i) f rest
  end.

Definition forEach {A} (f : A → nat → M unit) (xs : list A) : M unit := forEach_from 0 f xs.

(** [Promise.all] over operations that have all been started: every one runs;
    the result is rejected when one of them is. *)
Fixpoint promise_all {A} (ps : list (M A)) : M (list A) := λ h s,
  match ps with
  | [] => (Normal [], s)
  | p :: rest =>
      let '(r, s1) := p h s in
      let '(rs, s2) := promise_all rest h s1 in
      (match r, rs with
       | Normal a, Normal l => Normal (a :: l)
       | Throw e, _ => Throw e
       | Normal _, Throw e => Throw e
       end, s2)
  end.

(** ** Host APIs *)

(** [clients.matchAll({ includeUncontrolled, type })]. *)
Definition clients_matchAll (includeUncontrolled : bool) (type : ClientType) : M (list Client) :=
  λ h s,
  match h_matchAll h with
  | Some e => (Throw e, s)
  | None =>
      (Normal (filter (λ c, cl_type c = type ∧ (includeUncontrolled || cl_controlled c))
                 (h_clients h)), s)
  end.

Definition postMessage (c : Client) (msg : value) : M unit :=
  match cl_post c with
  | Some e => throw e
  | None => emit (PostMessage (cl_id c) msg)
  end.

(** [self.registration.showNotification(title, options)]. *)
Definition showNotification (title options : value) : M unit := λ h s,
  let s1 := mkState (s_caches s) (s_fetches s) (S (s_notifs s)) (s_shown s)
              (s_trace s ++ [ShowNotification title options]) in
  match h_notify h (s_notifs s) with
  | Some e => (Throw e, s1)
  | None =>
      (Normal (), mkState (s_caches s1) (s_fetches s1) (s_notifs s1)
                    (s_shown s1 ++ [(title, options)]) (s_trace s1))
  end.

(** [fetch(request)] for a GET request, identified by its URL. *)
Definition fetch (url : string) : M Response := λ h s,
  (h_net h (s_fetches s) url,
   mkState (s_caches s) (S (s_fetches s)) (s_notifs s) (s_shown s)
     (s_trace s ++ [NetFetch url])).

Definition has_bucket (cacheName : string) (cs : list (string * gmap string Response)) : bool :=
  bool_decide (cacheName ∈ cs.*1).

(** [caches.open(name)]: creates the bucket when absent. *)
Definition caches_open (cacheName : string) : M string := λ h s,
  match h_cache_open h with
  | Some e => (Throw e, s)
  | None =>
      (Normal cacheName,
       if has_bucket cacheName (s_caches s) then s
       else set_caches (s_caches s ++ [(cacheName, ∅)]) s)
  end.

Definition put_all (cacheName : string) (entries : list (string * Response))
    (cs : list (string * gmap string Response)) : list (string * gmap string Response) :=
  (λ p, if String.eqb p.1 cacheName
        then (p.1, foldl (λ m e, <[e.1 := e.2]> m) p.2 entries)
        else p) <$> cs.

(** What [cache.addAll] accepts: a response with an ok status that is not a
    partial response (status 206). *)
Definition r_storable (r : Response) : bool :=
  r_ok r && negb (r_status r =? 206)%nat.

(** [cache.addAll(urls)]: every URL is fetched (relative to the worker's
    origin); the entries are stored only when every fetch succeeded with an
    ok response other than a partial one, otherwise the promise is rejected
    and nothing is stored. *)
Definition cache_addAll (cacheName : string) (urls : list string) : M unit :=
  origin ← ask h_origin;
  responses ← promise_all
    ((λ u, (r ← fetch (origin ++ u); mret (origin ++ u, r)) : M (string * Response)) <$> urls);
  if forallb (λ e : string * Response, r_storable e.2) responses
  then modify (λ s, set_caches (put_all cacheName responses (s_caches s)) s)
  else throw (mkError "TypeError" "Request failed").

Definition caches_keys : M (list string) := λ h s,
  match h_cache_keys h with
  | Some e => (Throw e, s)
  | None => (Normal (s_caches s).*1, s)
  end.

(** [caches.delete(name)]: resolves to whether the bucket existed. *)
Definition caches_delete (cacheName : string) : M bool := λ h s,
  match h_cache_delete h cacheName with
  | Some e => (Throw e, s)
  | None =>
      (Normal (has_bucket cacheName (s_caches s)),
       set_caches (filter (λ p, p.1 ≠ cacheName) (s_caches s)) s)
  end.

(** [caches.match(request)]: the first bucket, in creation order, that holds
    the request's URL. *)
Fixpoint first_match (url : string) (cs : list (string * gmap string Response)) : option Response :=
  match cs with
  | [] => None
  | (_, c) :: rest =>
      match c !! url with
      | Some r => Some r
      | None => first_match url rest
      end
  end.

Definition caches_match (url : string) : M (option Response) := λ h s,
  match h_cache_match h with
  | Some e => (Throw e, s)
  | None => (Normal (first_match url (s_caches s)), s)
  end.

Definition client_focus (c : Client) : M unit :=
  emit (Focus (cl_id c)) ;;
  match cl_focus c with
  | Some e => throw e
  | None => mret ()
  end.

Definition clients_openWindow (url : string) : M unit :=
  emit (OpenWindow url) ;;
  e ← ask h_openWindow;
  match e with
  | Some e => throw e
  | None => mret ()
  end.

(** ** Handlers that are the same text in both versions *)

(** The install, activate, fetch and notificationclick listeners of
    [src/public/sw.js] and [src/unnamed/part_000] differ only in the value of
    [CACHE_NAME].  A handler's result is the settlement of the promise it
    hands to [event.waitUntil] / [event.respondWith]. *)
Section Lifecycle.

Variable CACHE_NAME : string.

Definition urlsToCache : list string :=
  ["/"; "/manifest.json"; "/navikinder-logo-256.png"].

(** The precache step of the install listener:
    [caches.open(CACHE_NAME).then((cache) => cache.addAll(urlsToCache))]. *)
Definition precache : M unit :=
  cache ← caches_open CACHE_NAME; cache_addAll cache urlsToCache.

(** [self.addEventListener('install', ...)]. *)
Definition on_install : M unit :=
  emit SkipWaiting ;;
  try_catch precache
    (λ error, console_error [AVal (VStr "Cache installation failed:"); AErr error]).

(** [self.addEventListener('activate', ...)]. *)
Definition on_activate : M unit :=
  console_log [AVal (VStr "🔄 Service Worker activated")] ;;
  emit ClientsClaim ;;
  cacheNames ← caches_keys;
  promise_all
    ((λ cacheName,
        if bool_decide (cacheName ≠ CACHE_NAME)
        then (b ← caches_delete cacheName; mret (VBool b))
        else mret VUndefined) <$> cacheNames) ;;
  console_log [AVal (VStr "🧹 Cache cleanup complete")] ;;
  emit (SetTimeout "sendInitialLog" 1000).

(** [self.addEventListener('fetch', ...)]; [request] is the URL of
    [event.request]. *)
Definition on_fetch (request : string) : M Response :=
  try_catch
    (response ← caches_match request;
     match response with
     | Some cached => mret cached
     | None =>
         try_catch (fetch request)
           (λ error,
              console_error [AVal (VStr "Network fetch failed:"); AErr error] ;;
              throw error)
     end)
    (λ error,
       console_error [AVal (VStr "Cache lookup failed:"); AErr error] ;;
       fetch request).

(** The [for] loop of the notificationclick listener: the first client whose
    URL includes the worker's origin is focused; without one a window is
    opened. *)
Fixpoint focus_or_open (origin : string) (clientList : list Client) : M unit :=
  match clientList with
  | [] => clients_openWindow "/overview"
  | client :: rest =>
      if includes (cl_url client) origin
      then client_focus client
      else focus_or_open origin rest
  end.

(** [self.addEventListener('notificationclick', ...)]. *)
Definition on_notificationclick : M unit :=
  emit NotificationClose ;;
  try_catch
    (clientList ← clients_matchAll true window;
     origin ← ask h_origin;
     focus_or_open origin clientList)
    (λ error,
       console_error [AVal (VStr "Failed to handle notification click:"); AErr error]).

End Lifecycle.

(** The message every connected client receives. *)
Definition log_message (logType message : string) (data : value) (timestamp : string) : value :=
  VObj [("type", VStr "SW_LOG"); ("logType", VStr logType); ("message", VStr message);
        ("data", data); ("timestamp", VStr timestamp)].

(** The detail object of a failed render:
    [{ name: error.name, message: error.message, permission: Notification.permission }]. *)
Definition error_detail (error : JSError) (permission : string) : value :=
  VObj [("name", VStr (name error)); ("message", VStr (message error));
        ("permission", VStr permission)].

(** The payload of a push event: [event.data] is null or a [PushMessageData],
    of which the script calls [json()] and [text()]. *)
Record PushMessageData : Type := mkPushData {
  pmd_json : Completion value;
  pmd_text : Completion string
}.

Record PushEvent : Type := mkPushEvent { pe_data : option PushMessageData }.

(** The double of a natural number below 2^53 (an array length). *)
Definition number_of_nat (n : nat) : spec_float :=
  match n with
  | 0 => S754_zero false
  | S _ => S754_finite false (Pos.of_nat n) 0
  end.

(** [v === s] for a string [s]. *)
Definition strictly_equals_string (v : value) (s : string) : bool :=
  match v with
  | VStr t => String.eqb t s
  | _ => false
  end.

(** [data && data.type === type]: the property is read only when [data] is
    truthy. *)
Definition has_type (data : value) (type : string) : Completion bool :=
  if ToBoolean data
  then match Get data "type" with
       | Normal t => Normal (strictly_equals_string t type)
       | Throw e => Throw e
       end
  else Normal false.

(** ** src/public/sw.js *)
Module V3.

Definition CACHE_NAME : string := "medication-tracker-v3".

(** [sendLogToApp] (lines 98-114): [matchAll()] with the default options,
    a [forEach] without a [try], a promise without a [catch]. *)
Definition sendLogToApp (logType message : string) (data : value) : M unit :=
  emit (LogEvent logType message data) ;;
  detached
    (clients ← clients_matchAll false window;
     forEach
       (λ client _,
          now ← ask h_now;
          postMessage client (log_message logType message data now))
       clients) ;;
  console_log [AVal (VStr ("[SW] " ++ message)); AVal (js_or data (VStr ""))].

(** Payload decode (lines 124-143). *)
Definition decode (event : PushEvent) : M value :=
  match pe_data event with
  | Some d =>
      try_catch
        (data ← lift (pmd_json d);
         sendLogToApp "success" "📦 Successfully parsed push data" data ;;
         mret data)
        (λ e,
           sendLogToApp "error" "❌ Failed to parse JSON" (VStr (message e)) ;;
           try_catch
             (text ← lift (pmd_text d);
              sendLogToApp "warning" "⚠️ Using text fallback" VNull ;;
              mret (VObj [("body", VStr text)]))
             (λ textError,
                sendLogToApp "error" "❌ Failed to parse text" (VStr (message textError)) ;;
                mret (VObj [])))
  | None =>
      sendLogToApp "warning" "⚠️ No data in push event" VNull ;;
      mret (VObj [])
  end.

(** Field derivation (lines 146-154): the title and the options bundle. *)
Definition derive (data : value) : Completion (value * value) :=
  match Get data "title" with
  | Throw e => Throw e
  | Normal t =>
      match Get data "body" with
      | Throw e => Throw e
      | Normal b =>
          match Get data "data" with
          | Throw e => Throw e
          | Normal d =>
              Normal (js_or t (VStr "Medication Reminder"),
                      VObj [("body", js_or b (VStr "It's time for a medication dose"));
                            ("icon", VStr "/navikinder-logo-256.png");
                            ("badge", VStr "/navikinder-logo-256.png");
                            ("data", js_or d (VObj []));
                            ("requireInteraction", VBool true)])
          end
      end
  end.

Definition fallback_options : value :=
  VObj [("body", VStr "It's time for a medication dose");
        ("icon", VStr "/navikinder-logo-256.png")].

(** Render attempt and render fallback (lines 156-178). *)
Definition render (title options : value) : M unit :=
  body ← lift (Get options "body");
  sendLogToApp "info" "📱 Attempting to show notification"
    (VObj [("title", title); ("body", body)]) ;;
  try_catch
    (showNotification title options ;;
     sendLogToApp "success" "✅ Notification shown successfully!" VNull)
    (λ error,
       permission ← ask h_permission;
       sendLogToApp "error" "❌ showNotification failed" (error_detail error permission) ;;
       try_catch
         (showNotification (VStr "Medication Reminder") fallback_options ;;
          sendLogToApp "success" "✅ Fallback notification shown" VNull)
         (λ fallbackError,
            sendLogToApp "error" "❌ Even fallback notification failed"
              (VStr (message fallbackError)))).

(** [self.addEventListener('push', ...)] (lines 117-181). *)
Definition on_push (event : PushEvent) : M unit :=
  sendLogToApp "info" "🔔 Push notification received" VNull ;;
  permission ← ask h_permission;
  sendLogToApp "info" ("🔒 Permission: " ++ permission) VNull ;;
  data ← decode event;
  '(title, options) ← lift (derive data);
  render title options.

Definition on_install := on_install CACHE_NAME.
Definition on_activate := on_activate CACHE_NAME.

(** [sendInitialLog] (lines 7-24): its promise chain ends in a [catch]. *)
Definition sendInitialLog : M unit :=
  console_log [AVal (VStr "📡 Service Worker attempting to send initial log")] ;;
  try_catch
    (clients ← clients_matchAll false window;
     console_log [AVal (VStr "👥 Found clients:"); AVal (VNum (number_of_nat (length clients)))] ;;
     forEach
       (λ client _,
          console_log [AVal (VStr "📤 Sending initial log to client")] ;;
          dataTimestamp ← ask h_now;
          timestamp ← ask h_now;
          postMessage client
            (VObj [("type", VStr "SW_LOG"); ("logType", VStr "info");
                   ("message", VStr "🚀 Service Worker is active and ready");
                   ("data", VObj [("timestamp", VStr dataTimestamp)]);
                   ("timestamp", VStr timestamp)]))
       clients)
    (λ err, console_error [AVal (VStr "❌ Failed to send initial log:"); AErr err]).

(** [self.addEventListener('message', ...)] (lines 66-74); [data] is
    [event.data]. *)
Definition on_message (data : value) : M unit :=
  console_log [AVal (VStr "📨 Service Worker received message:"); AVal data] ;;
  isConnection ← lift (has_type data "TEST_CONNECTION");
  if isConnection : bool
  then sendLogToApp "success" "✅ Service Worker connection verified" VNull
  else
    isLog ← lift (has_type data "TEST_LOG");
    if isLog : bool
    then sendLogToApp "success" "🧪 Service Worker test message received" VNull ;;
         sendLogToApp "info" "📊 Service Worker is functioning correctly" VNull
    else mret ().

End V3.

(** ** src/unnamed/part_000 *)
Module V4.

Definition CACHE_NAME : string := "medication-tracker-v4".

(** [sendLogToApp] (lines 7-34): clients are enumerated with
    [includeUncontrolled], each delivery has its own [try], and the whole
    body is inside a [try]. *)
Definition sendLogToApp (logType message : string) (data : value) : M unit :=
  emit (LogEvent logType message data) ;;
  try_catch
    (clients ← clients_matchAll true window;
     console_log
       [AVal (VStr ("[SW] Found " ++ nat_to_string (length clients)
                      ++ " clients to send log to"))] ;;
     now ← ask h_now;
     let logMessage := log_message logType message data now in
     forEach
       (λ client index,
          try_catch
            (console_log
               [AVal (VStr ("[SW] Sending log to client " ++ nat_to_string (index + 1) ++ ":"));
                AVal logMessage] ;;
             postMessage client logMessage)
            (λ clientError,
               console_error
                 [AVal (VStr ("[SW] Failed to send to client "
                                ++ nat_to_string (index + 1) ++ ":"));
                  AErr clientError]))
       clients ;;
     console_log [AVal (VStr ("[SW] " ++ message)); AVal (js_or data (VStr ""))])
    (λ error, console_error [AVal (VStr "[SW] Failed to send log to app:"); AErr error]).

(** Payload decode (lines 130-149). *)
Definition decode (event : PushEvent) : M value :=
  match pe_data event with
  | Some d =>
      try_catch
        (data ← lift (pmd_json d);
         sendLogToApp "success" "📦 Successfully parsed push data" data ;;
         mret data)
        (λ e,
           sendLogToApp "error" "❌ Failed to parse JSON" (VStr (message e)) ;;
           try_catch
             (text ← lift (pmd_text d);
              sendLogToApp "warning" "⚠️ Using text fallback" VNull ;;
              mret (VObj [("body", VStr text)]))
             (λ textError,
                sendLogToApp "error" "❌ Failed to parse text" (VStr (message textError)) ;;
                mret (VObj [])))
  | None =>
      sendLogToApp "warning" "⚠️ No data in push event" VNull ;;
      mret (VObj [])
  end.

(** Field derivation (lines 152-160). *)
Definition derive (data : value) : Completion (value * value) :=
  match Get data "title" with
  | Throw e => Throw e
  | Normal t =>
      match Get data "body" with
      | Throw e => Throw e
      | Normal b =>
          match Get data "data" with
          | Throw e => Throw e
          | Normal d =>
              Normal (js_or t (VStr "Medication Reminder"),
                      VObj [("body", js_or b (VStr "It's time for a medication dose"));
                            ("icon", VStr "/navikinder-logo-256.png");
                            ("badge", VStr "/navikinder-logo-256.png");
                            ("data", js_or d (VObj []));
                            ("requireInteraction", VBool true)])
          end
      end
  end.

Definition debug_options : value :=
  VObj [("body", VStr "This confirms push events reach the service worker and showNotification works");
        ("icon", VStr "https://via.placeholder.com/192x192.png")].

Definition fallback_options : value :=
  VObj [("body", VStr "It's time for a medication dose");
        ("icon", VStr "https://via.placeholder.com/192x192.png")].

(** The test notification (lines 164-177). *)
Definition render_debug : M unit :=
  try_catch
    (showNotification (VStr "🧪 DEBUG: Push Event Received") debug_options ;;
     sendLogToApp "success" "✅ DEBUG notification shown - push events work!" VNull)
    (λ debugError,
       permission ← ask h_permission;
       sendLogToApp "error" "❌ DEBUG notification failed" (error_detail debugError permission)).

(** Render attempt and render fallback (lines 162, 179-200). *)
Definition render (title options : value) : M unit :=
  body ← lift (Get options "body");
  sendLogToApp "info" "📱 Attempting to show notification"
    (VObj [("title", title); ("body", body)]) ;;
  render_debug ;;
  try_catch
    (showNotification title options ;;
     sendLogToApp "success" "✅ Main notification shown successfully!" VNull)
    (λ error,
       permission ← ask h_permission;
       sendLogToApp "error" "❌ Main showNotification failed" (error_detail error permission) ;;
       try_catch
         (showNotification (VStr "Medication Reminder") fallback_options ;;
          sendLogToApp "success" "✅ Fallback notification shown" VNull)
         (λ fallbackError,
            sendLogToApp "error" "❌ Even fallback notification failed"
              (VStr (message fallbackError)))).

(** [self.addEventListener('push', ...)] (lines 117-203). *)
Definition on_push (event : PushEvent) : M unit :=
  console_log [AVal (VStr "🚨 PUSH EVENT FIRED - THIS SHOULD APPEAR IN LOGS")] ;;
  console_log [AVal (VStr "🚨 Event data exists:"); AVal (VBool (bool_decide (is_Some (pe_data event))))] ;;
  permission ← ask h_permission;
  console_log [AVal (VStr "🚨 Notification permission:"); AVal (VStr permission)] ;;
  sendLogToApp "success" "🚨 CRITICAL: Push event fired on service worker!" VNull ;;
  sendLogToApp "info" "🔔 Push notification received" VNull ;;
  sendLogToApp "info" ("🔒 Permission: " ++ permission) VNull ;;
  data ← decode event;
  '(title, options) ← lift (derive data);
  render title options.

Definition on_install := on_install CACHE_NAME.
Definition on_activate := on_activate CACHE_NAME.

(** [sendInitialLog] (lines 37-40). *)
Definition sendInitialLog : M unit :=
  console_log [AVal (VStr "📡 Service Worker attempting to send initial log")] ;;
  sendLogToApp "info" "🚀 Service Worker is active and ready" VNull.

(** [self.addEventListener('message', ...)] (lines 82-91); [data] is
    [event.data]. *)
Definition on_message (data : value) : M unit :=
  console_log [AVal (VStr "📨 Service Worker received message:"); AVal data] ;;
  isConnection ← lift (has_type data "TEST_CONNECTION");
  if isConnection : bool
  then sendLogToApp "success" "✅ Service Worker connection verified" VNull
  else
    isLog ← lift (has_type data "TEST_LOG");
    if isLog : bool
    then sendLogToApp "success" "🧪 Service Worker test message received" VNull ;;
         sendLogToApp "info" "📊 Service Worker is functioning correctly" VNull
    else mret ().

End V4.

(** ** Observations of a run *)

(** What a handler [m], started in state [s] on host [h], added to the trace;
    the notifications the host displayed for it; how it completed; how many
    render calls and network fetches it made. *)
Definition effects {A} (m : M A) (h : Host) (s : State) : list Effect :=
  drop (length (s_trace s)) (s_trace (m h s).2).

Definition displayed {A} (m : M A) (h : Host) (s : State) : list (value * value) :=
  drop (length (s_shown s)) (s_shown (m h s).2).

Definition completion {A} (m : M A) (h : Host) (s : State) : Completion A := (m h s).1.

Definition render_calls {A} (m : M A) (h : Host) (s : State) : nat :=
  s_notifs (m h s).2 - s_notifs s.

Definition network_calls {A} (m : M A) (h : Host) (s : State) : nat :=
  s_fetches (m h s).2 - s_fetches s.

(** The render requests in a trace, in order. *)
Definition render_requests (es : list Effect) : list (value * value) :=
  omap (λ e, match e with ShowNotification t o => Some (t, o) | _ => None end) es.

(** The texts handed to [console.error] in a trace, in order. *)
Definition console_errors (es : list Effect) : list (list carg) :=
  omap (λ e, match e with ConsoleError args => Some args | _ => None end) es.

(** The log events in a trace, and the messages handed to clients, in order. *)
Definition log_events (es : list Effect) : list (string * string * value) :=
  omap (λ e, match e with LogEvent lt m d => Some (lt, m, d) | _ => None end) es.

Definition posted (es : list Effect) : list (nat * value) :=
  omap (λ e, match e with PostMessage c m => Some (c, m) | _ => None end) es.

(** The URLs fetched from the network in a trace, in order. *)
Definition fetched (es : list Effect) : list string :=
  omap (λ e, match e with NetFetch u => Some u | _ => None end) es.

(** ** Closed forms of the relay and of the push pipeline *)

(** State after a render request. *)
Definition notified (title options : value) (accepted : bool) (s : State) : State :=
  mkState (s_caches s) (s_fetches s) (S (s_notifs s))
    (if accepted then s_shown s ++ [(title, options)] else s_shown s)
    (s_trace s ++ [ShowNotification title options]).

(** [V3.sendLogToApp]: deliveries stop at the first client whose
    [postMessage] throws. *)
Fixpoint v3_deliver (msg : value) (clients : list Client) : Completion unit * list Effect :=
  match clients with
  | [] => (Normal (), [])
  | c :: rest =>
      match cl_post c with
      | Some e => (Throw e, [])
      | None => let '(r, es) := v3_deliver msg rest in (r, PostMessage (cl_id c) msg :: es)
      end
  end.

Definition V3_relay (logType message : string) (data : value) (h : Host) : list Effect :=
  LogEvent logType message data ::
  match h_matchAll h with
  | Some e => [UnhandledRejection e]
  | None =>
      let r := v3_deliver (log_message logType message data (h_now h))
                 (filter (λ c, cl_type c = window ∧ (false || cl_controlled c)) (h_clients h)) in
      r.2 ++ match r.1 with Normal _ => [] | Throw e => [UnhandledRejection e] end
  end ++ [ConsoleLog [AVal (VStr ("[SW] " ++ message)); AVal (js_or data (VStr ""))]].

(** [V4.sendLogToApp]: every client is tried. *)
Fixpoint v4_deliver (i : nat) (msg : value) (clients : list Client) : list Effect :=
  match clients with
  | [] => []
  | c :: rest =>
      ConsoleLog [AVal (VStr ("[SW] Sending log to client " ++ nat_to_string (i + 1) ++ ":"));
                  AVal msg]
      :: match cl_post c with
         | Some e =>
             ConsoleError
               [AVal (VStr ("[SW] Failed to send to client " ++ nat_to_string (i + 1) ++ ":"));
                AErr e]
         | None => PostMessage (cl_id c) msg
         end
      :: v4_deliver (S i) msg rest
  end.

Definition V4_relay (logType message : string) (data : value) (h : Host) : list Effect :=
  LogEvent logType message data ::
  match h_matchAll h with
  | Some e => [ConsoleError [AVal (VStr "[SW] Failed to send log to app:"); AErr e]]
  | None =>
      let clients := filter (λ c, cl_type c = window ∧ (true || cl_controlled c)) (h_clients h) in
      ConsoleLog [AVal (VStr ("[SW] Found " ++ nat_to_string (length clients)
                                ++ " clients to send log to"))]
      :: v4_deliver 0 (log_message logType message data (h_now h)) clients
      ++ [ConsoleLog [AVal (VStr ("[SW] " ++ message)); AVal (js_or data (VStr ""))]]
  end.

(** The message of [V3.sendInitialLog], and its deliveries: each is announced
    on the console, and they stop at the first client whose [postMessage]
    throws. *)
Definition initial_message (now : string) : value :=
  VObj [("type", VStr "SW_LOG"); ("logType", VStr "info");
        ("message", VStr "🚀 Service Worker is active and ready");
        ("data", VObj [("timestamp", VStr now)]);
        ("timestamp", VStr now)].

Fixpoint v3_initial_deliver (msg : value) (clients : list Client)
    : Completion unit * list Effect :=
  match clients with
  | [] => (Normal (), [])
  | c :: rest =>
      match cl_post c with
      | Some e => (Throw e, [ConsoleLog [AVal (VStr "📤 Sending initial log to client")]])
      | None =>
          let '(r, es) := v3_initial_deliver msg rest in
          (r, ConsoleLog [AVal (VStr "📤 Sending initial log to client")]
              :: PostMessage (cl_id c) msg :: es)
      end
  end.

Definition V3_initial_trace (h : Host) : list Effect :=
  ConsoleLog [AVal (VStr "📡 Service Worker attempting to send initial log")] ::
  match h_matchAll h with
  | Some e => [ConsoleError [AVal (VStr "❌ Failed to send initial log:"); AErr e]]
  | None =>
      let clients := filter (λ c, cl_type c = window ∧ (false || cl_controlled c)) (h_clients h) in
      let r := v3_initial_deliver (initial_message (h_now h)) clients in
      ConsoleLog [AVal (VStr "👥 Found clients:"); AVal (VNum (number_of_nat (length clients)))]
      :: r.2 ++ match r.1 with
                | Normal _ => []
                | Throw e => [ConsoleError [AVal (VStr "❌ Failed to send initial log:"); AErr e]]
                end
  end.

(** The payload object the decode step ends with, and the log events it
    emits, as functions of the event alone. *)
Definition payload_of (event : PushEvent) : value :=
  match pe_data event with
  | None => VObj []
  | Some d =>
      match pmd_json d with
      | Normal v => v
      | Throw _ =>
          match pmd_text d with
          | Normal text => VObj [("body", VStr text)]
          | Throw _ => VObj []
          end
      end
  end.

Definition decode_logs (event : PushEvent) : list (string * string * value) :=
  match pe_data event with
  | None => [("warning", "⚠️ No data in push event", VNull)]
  | Some d =>
      match pmd_json d with
      | Normal v => [("success", "📦 Successfully parsed push data", v)]
      | Throw e =>
          ("error", "❌ Failed to parse JSON", VStr (message e)) ::
          match pmd_text d with
          | Normal text => [("warning", "⚠️ Using text fallback", VNull)]
          | Throw te => [("error", "❌ Failed to parse text", VStr (message te))]
          end
      end
  end.

Definition relay_all (relay : string → string → value → Host → list Effect)
    (logs : list (string * string * value)) (h : Host) : list Effect :=
  concat ((λ l, relay l.1.1 l.1.2 l.2 h) <$> logs).

(** The detail of the "attempting" log: [{ title, body: options.body }]. *)
Definition attempt_log (title options : value) : value :=
  VObj [("title", title);
        ("body", default VUndefined
                   (own_property match options with VObj props => props | _ => [] end "body"))].

Definition V3_prologue (event : PushEvent) (h : Host) : list Effect :=
  V3_relay "info" "🔔 Push notification received" VNull h
  ++ V3_relay "info" ("🔒 Permission: " ++ h_permission h) VNull h
  ++ relay_all V3_relay (decode_logs event) h.

Definition V3_render_state (title options : value) (h : Host) (s : State) : State :=
  let s1 := add_trace (V3_relay "info" "📱 Attempting to show notification"
                         (attempt_log title options) h) s in
  match h_notify h (s_notifs s) with
  | None =>
      add_trace (V3_relay "success" "✅ Notification shown successfully!" VNull h)
        (notified title options true s1)
  | Some error =>
      let s2 := add_trace (V3_relay "error" "❌ showNotification failed"
                             (error_detail error (h_permission h)) h)
                  (notified title options false s1) in
      match h_notify h (S (s_notifs s)) with
      | None =>
          add_trace (V3_relay "success" "✅ Fallback notification shown" VNull h)
            (notified (VStr "Medication Reminder") V3.fallback_options true s2)
      | Some fallbackError =>
          add_trace (V3_relay "error" "❌ Even fallback notification failed"
                       (VStr (message fallbackError)) h)
            (notified (VStr "Medication Reminder") V3.fallback_options false s2)
      end
  end.

Definition V4_prologue (event : PushEvent) (h : Host) : list Effect :=
  [ConsoleLog [AVal (VStr "🚨 PUSH EVENT FIRED - THIS SHOULD APPEAR IN LOGS")];
   ConsoleLog [AVal (VStr "🚨 Event data exists:");
               AVal (VBool (bool_decide (is_Some (pe_data event))))];
   ConsoleLog [AVal (VStr "🚨 Notification permission:"); AVal (VStr (h_permission h))]]
  ++ V4_relay "success" "🚨 CRITICAL: Push event fired on service worker!" VNull h
  ++ V4_relay "info" "🔔 Push notification received" VNull h
  ++ V4_relay "info" ("🔒 Permission: " ++ h_permission h) VNull h
  ++ relay_all V4_relay (decode_logs event) h.

Definition V4_debug_state (h : Host) (s : State) : State :=
  match h_notify h (s_notifs s) with
  | None =>
      add_trace (V4_relay "success" "✅ DEBUG notification shown - push events work!" VNull h)
        (notified (VStr "🧪 DEBUG: Push Event Received") V4.debug_options true s)
  | Some debugError =>
      add_trace (V4_relay "error" "❌ DEBUG notification failed"
                   (error_detail debugError (h_permission h)) h)
        (notified (VStr "🧪 DEBUG: Push Event Received") V4.debug_options false s)
  end.

Definition V4_main_state (title options : value) (h : Host) (s : State) : State :=
  match h_notify h (s_notifs s) with
  | None =>
      add_trace (V4_relay "success" "✅ Main notification shown successfully!" VNull h)
        (notified title options true s)
  | Some error =>
      let s2 := add_trace (V4_relay "error" "❌ Main showNotification failed"
                             (error_detail error (h_permission h)) h)
                  (notified title options false s) in
      match h_notify h (S (s_notifs s)) with
      | None =>
          add_trace (V4_relay "success" "✅ Fallback notification shown" VNull h)
            (notified (VStr "Medication Reminder") V4.fallback_options true s2)
      | Some fallbackError =>
          add_trace (V4_relay "error" "❌ Even fallback notification failed"
                       (VStr (message fallbackError)) h)
            (notified (VStr "Medication Reminder") V4.fallback_options false s2)
      end
  end.

Definition V4_render_state (title options : value) (h : Host) (s : State) : State :=
  V4_main_state title options h
    (V4_debug_state h
       (add_trace (V4_relay "info" "📱 Attempting to show notification"
                     (attempt_log title options) h) s)).

(** The network's answers to the fetches of [cache.addAll(urls)] when [n]
    fetches were made before, whether an answer is an ok response, and the
    entries [addAll] collects: all of them, or the first failure. *)
Fixpoint answers_from (h : Host) (n : nat) (urls : list string) : list (Completion Response) :=
  match urls with
  | [] => []
  | u :: rest => h_net h n (h_origin h ++ u) :: answers_from h (S n) rest
  end.

Definition answer_ok (a : Completion Response) : bool :=
  match a with
  | Normal r => r_ok r
  | Throw _ => false
  end.

(** Whether an answer is a response that [cache.addAll] accepts. *)
Definition answer_storable (a : Completion Response) : bool :=
  match a with
  | Normal r => r_storable r
  | Throw _ => false
  end.

Fixpoint fetched_entries (h : Host) (n : nat) (urls : list string)
    : Completion (list (string * Response)) :=
  match urls with
  | [] => Normal []
  | u :: rest =>
      match h_net h n (h_origin h ++ u), fetched_entries h (S n) rest with
      | Normal r, Normal l => Normal ((h_origin h ++ u, r) :: l)
      | Throw e, _ => Throw e
      | Normal _, Throw e => Throw e
      end
  end.

(** Cache storage after [caches.open(cacheName)]. *)
Definition opened (cacheName : string) (cs : list (string * gmap string Response))
    : list (string * gmap string Response) :=
  if has_bucket cacheName cs then cs else cs ++ [(cacheName, ∅)].

(** ** Vocabulary of the statements *)

Definition default_title : value := VStr "Medication Reminder".
Definition default_body : value := VStr "It's time for a medication dose".

(** The options bundle of the primary render request. *)
Definition notification_options (body data : value) : value :=
  VObj [("body", body);
        ("icon", VStr "/navikinder-logo-256.png");
        ("badge", VStr "/navikinder-logo-256.png");
        ("data", data);
        ("requireInteraction", VBool true)].

(** Origin of a serialised http(s) URL: scheme, host and port, that is the
    text before the first [/], [?] or [#] that follows [://]. *)
Fixpoint authority (s : string) : string :=
  match s with
  | EmptyString => EmptyString
  | String c rest =>
      if bool_decide (c = "/"%char ∨ c = "?"%char ∨ c = "#"%char) then EmptyString
      else String c (authority rest)
  end.

Fixpoint url_origin (url : string) : string :=
  match url with
  | EmptyString => EmptyString
  | String c rest =>
      if String.prefix "://" url then "://" ++ authority (String.substring 3 (String.length url) url)
      else String c (url_origin rest)
  end.

(** What [V4.render_debug] gets displayed: its test notification, when the
    host accepts the render call made in state [s]. *)
Definition V4_debug_displayed (h : Host) (s : State) : list (value * value) :=
  match h_notify h (s_notifs s) with
  | None => [(VStr "🧪 DEBUG: Push Event Received", V4.debug_options)]
  | Some _ => []
  end.

(** What the render attempt and the render fallback get displayed, when the
    primary render call is the [n]-th: the derived notification, or else the
    fallback notification, or else nothing. *)
Definition main_displayed (fallback_options title options : value) (h : Host) (n : nat)
    : list (value * value) :=
  match h_notify h n with
  | None => [(title, options)]
  | Some _ =>
      match h_notify h (S n) with
      | None => [(VStr "Medication Reminder", fallback_options)]
      | Some _ => []
      end
  end.

(** A notification with the default title and the default body. *)
Definition is_default_notification (n : value * value) : Prop :=
  n.1 = default_title ∧ Get n.2 "body" = Normal default_body.

(** The log events of the render steps, when the render call in question is
    the [n]-th: of the fallback, of a render attempt with its fallback (with
    the texts of the version), and of the test notification of
    [src/unnamed/part_000]. *)
Definition fallback_logs (h : Host) (n : nat) : list (string * string * value) :=
  match h_notify h n with
  | None => [("success", "✅ Fallback notification shown", VNull)]
  | Some fallbackError =>
      [("error", "❌ Even fallback notification failed", VStr (message fallbackError))]
  end.

Definition render_logs (shown failed : string) (h : Host) (n : nat)
    : list (string * string * value) :=
  match h_notify h n with
  | None => [("success", shown, VNull)]
  | Some error => ("error", failed, error_detail error (h_permission h)) :: fallback_logs h (S n)
  end.

Definition debug_logs (h : Host) (n : nat) : list (string * string * value) :=
  match h_notify h n with
  | None => [("success", "✅ DEBUG notification shown - push events work!", VNull)]
  | Some debugError =>
      [("error", "❌ DEBUG notification failed", error_detail debugError (h_permission h))]
  end.

(** A window open in the browser, with the origin of its document.  A host
    lists to a worker only the clients of the worker's own origin: [listed]
    is the client list of such a host. *)
Record BrowserWindow : Type := mkBrowserWindow { bw_client : Client; bw_origin : string }.

Definition listed (origin : string) (open : list BrowserWindow) : list Client :=
  bw_client <$> filter (λ w, bw_origin w = origin) open.

(** The client a click focuses: the first window client, in the host's
    order, whose URL includes the worker's origin. *)
Definition click_target (h : Host) : option Client :=
  head (filter (λ c, includes (cl_url c) (h_origin h) = true)
          (filter (λ c, cl_type c = window ∧ (true || cl_controlled c)) (h_clients h))).

(** Everything the click listener does. *)
Definition click_effects (h : Host) : list Effect :=
  NotificationClose ::
  match h_matchAll h with
  | Some e => [ConsoleError [AVal (VStr "Failed to handle notification click:"); AErr e]]
  | None =>
      match click_target h with
      | Some c =>
          Focus (cl_id c) ::
          match cl_focus c with
          | Some e =>
              [ConsoleError [AVal (VStr "Failed to handle notification click:"); AErr e]]
          | None => []
          end
      | None =>
          OpenWindow "/overview" ::
          match h_openWindow h with
          | Some e =>
              [ConsoleError [AVal (VStr "Failed to handle notification click:"); AErr e]]
          | None => []
          end
      end
  end.

(** ** Concrete hosts, states and events *)

Definition empty_state : State := mkState [] 0 0 [] [].

Definition tab (id : nat) (url : string) (controlled : bool) : Client :=
  mkClient id url window controlled None None.

Definition ok_page : Response := mkResponse 200 "<!doctype html>".

(** A host on which every API call succeeds, with one controlled tab. *)
Definition quiet_host : Host :=
  mkHost "https://app.example" "granted" "2025-01-01T08:00:00.000Z"
    [tab 1 "https://app.example/overview" true]
    None (λ _, None) (λ _ _, Normal ok_page) None None None (λ _, None) None.

Definition NotAllowedError : JSError :=
  mkError "NotAllowedError" "No notification permission has been granted for this origin.".

(** The same host after the notification permission was revoked: every
    render call is rejected. *)
Definition host_renders_rejected : Host :=
  mkHost "https://app.example" "denied" "2025-01-01T08:00:00.000Z"
    [tab 1 "https://app.example/overview" true]
    None (λ _, Some NotAllowedError) (λ _ _, Normal ok_page) None None None (λ _, None) None.

Definition DataCloneError : JSError :=
  mkError "DataCloneError" "The object could not be cloned.".

(** Three tabs: the first one's [postMessage] throws, the second is fine, the
    third is not yet controlled by the worker. *)
Definition host_three_tabs : Host :=
  mkHost "https://app.example" "granted" "2025-01-01T08:00:00.000Z"
    [mkClient 1 "https://app.example/overview" window true (Some DataCloneError) None;
     tab 2 "https://app.example/settings" true;
     tab 3 "https://app.example/" false]
    None (λ _, None) (λ _ _, Normal ok_page) None None None (λ _, None) None.

Definition FailedToFetch : JSError := mkError "TypeError" "Failed to fetch".

(** A network that fails the first fetch and answers from the second on. *)
Definition host_flaky_network : Host :=
  mkHost "https://app.example" "granted" "2025-01-01T08:00:00.000Z"
    [tab 1 "https://app.example/overview" true]
    None (λ _, None)
    (λ n _, match n with 0 => Throw FailedToFetch | S _ => Normal ok_page end)
    None None None (λ _, None) None.

(** A network that is down. *)
Definition host_offline : Host :=
  mkHost "https://app.example" "granted" "2025-01-01T08:00:00.000Z"
    [tab 1 "https://app.example/overview" true]
    None (λ _, None) (λ _ _, Throw FailedToFetch) None None None (λ _, None) None.

Definition QuotaError : JSError := mkError "UnknownError" "The cache could not be deleted.".

(** A host on which deleting the bucket [medication-tracker-v2] is rejected. *)
Definition host_delete_rejected : Host :=
  mkHost "https://app.example" "granted" "2025-01-01T08:00:00.000Z"
    [tab 1 "https://app.example/overview" true]
    None (λ _, None) (λ _ _, Normal ok_page) None None None
    (λ cacheName, if String.eqb cacheName "medication-tracker-v2" then Some QuotaError else None)
    None.

Definition CacheError : JSError := mkError "UnknownError" "Cache storage is unavailable.".

(** A host whose cache lookups are rejected. *)
Definition host_cache_broken : Host :=
  mkHost "https://app.example" "granted" "2025-01-01T08:00:00.000Z"
    [tab 1 "https://app.example/overview" true]
    None (λ _, None) (λ _ _, Normal ok_page) None None (Some CacheError) (λ _, None) None.

(** A host with no client at all, and one with two windows of the worker's
    origin after a worker client. *)
Definition host_no_window : Host :=
  mkHost "https://app.example" "granted" "2025-01-01T08:00:00.000Z"
    [] None (λ _, None) (λ _ _, Normal ok_page) None None None (λ _, None) None.

Definition host_two_windows : Host :=
  mkHost "https://app.example" "granted" "2025-01-01T08:00:00.000Z"
    [mkClient 4 "https://app.example/worker.js" worker true None None;
     tab 5 "https://app.example/overview" false;
     tab 6 "https://app.example/settings" true]
    None (λ _, None) (λ _ _, Normal ok_page) None None None (λ _, None) None.

(** Three windows open in the browser: one of another origin whose URL
    carries the worker's origin in its query string, a blank popup of the
    application (it has the application's origin and the URL [about:blank]),
    and an application page. *)
Definition portal_window : BrowserWindow :=
  mkBrowserWindow (tab 7 "https://portal.example/redirect?to=https://app.example" false)
    "https://portal.example".

Definition blank_popup : BrowserWindow :=
  mkBrowserWindow (tab 8 "about:blank" false) "https://app.example".

Definition app_window : BrowserWindow :=
  mkBrowserWindow (tab 9 "https://app.example/overview" true) "https://app.example".

(** The host of the worker of [https://app.example] when the windows [open]
    are open: the clients it lists are those of the worker's origin. *)
Definition host_with_windows (open : list BrowserWindow) : Host :=
  mkHost "https://app.example" "granted" "2025-01-01T08:00:00.000Z"
    (listed "https://app.example" open)
    None (λ _, None) (λ _ _, Normal ok_page) None None None (λ _, None) None.


Definition partial_page : Response := mkResponse 206 "<!doctype html>".

(** A network that answers every request with a partial response. *)
Definition host_partial_answers : Host :=
  mkHost "https://app.example" "granted" "2025-01-01T08:00:00.000Z"
    [tab 1 "https://app.example/overview" true]
    None (λ _, None) (λ _ _, Normal partial_page) None None None (λ _, None) None.

(** Cache storage left behind by two earlier versions and one current bucket. *)
Definition state_three_buckets : State :=
  mkState
    [("medication-tracker-v2", {["https://app.example/" := ok_page]});
     ("medication-tracker-v3", {["https://app.example/" := ok_page]});
     ("medication-tracker-v4", {["https://app.example/manifest.json" := ok_page]})]
    0 0 [] [].

Definition SyntaxError : JSError :=
  mkError "SyntaxError" "Unexpected end of JSON input".

(** A double quote, and a quoted JSON string. *)
Definition dq : string := String (ascii_of_nat 34) EmptyString.
Definition quoted (s : string) : string := dq ++ s ++ dq.








(** A payload whose JSON is [null], one whose JSON is the string "ping", and
    one of which neither [json()] nor [text()] can be read. *)
Definition data_null : PushMessageData := mkPushData (Normal VNull) (Normal "null").

Definition data_json_string : PushMessageData :=
  mkPushData (Normal (VStr "ping")) (Normal (quoted "ping")).

Definition DecodeError : JSError := mkError "TypeError" "The encoded data was not valid.".

Definition data_unreadable : PushMessageData :=
  mkPushData (Throw SyntaxError) (Throw DecodeError).

(** A push without payload: [event.data] is null. *)
Definition event_no_payload : PushEvent := mkPushEvent None.

(** * Running the monad *)

Lemma add_trace_add_trace es1 es2 s :
  add_trace es2 (add_trace es1 s) = add_trace (es1 ++ es2) s.
Proof. destruct s; unfold add_trace; simpl. by rewrite <- app_assoc. Qed.

Lemma add_trace_nil s : add_trace [] s = s.
Proof. destruct s; unfold add_trace; simpl. by rewrite app_nil_r. Qed.

Section Run.
Context {A B : Type}.

Lemma bind_run (m : M A) (f : A → M B) h s :
  (m ≫= f) h s
  = match m h s with
    | (Normal a, s') => f a h s'
    | (Throw e, s') => (Throw e, s')
    end.
Proof. reflexivity. Qed.

Lemma try_run (m : M A) (k : JSError → M A) h s :
  try_catch m k h s
  = match m h s with
    | (Normal a, s') => (Normal a, s')
    | (Throw e, s') => k e h s'
    end.
Proof. reflexivity. Qed.

Lemma ret_run (a : A) h s : mret (M:=M) a h s = (Normal a, s).
Proof. reflexivity. Qed.

Lemma throw_run e h s : throw (A:=A) e h s = (Throw e, s).
Proof. reflexivity. Qed.

Lemma lift_run (c : Completion A) h s : lift c h s = (c, s).
Proof. reflexivity. Qed.

Lemma ask_run (f : Host → A) h s : ask f h s = (Normal (f h), s).
Proof. reflexivity. Qed.
End Run.

Lemma emit_run e h s : emit e h s = (Normal (), add_trace [e] s).
Proof. reflexivity. Qed.

Lemma console_log_run a h s : console_log a h s = (Normal (), add_trace [ConsoleLog a] s).
Proof. reflexivity. Qed.

Lemma console_error_run a h s : console_error a h s = (Normal (), add_trace [ConsoleError a] s).
Proof. reflexivity. Qed.

Lemma detached_run m h s :
  detached m h s
  = match m h s with
    | (Normal a, s') => (Normal a, s')
    | (Throw e, s') => (Normal (), add_trace [UnhandledRejection e] s')
    end.
Proof. reflexivity. Qed.

Lemma showNotification_run t o h s :
  showNotification t o h s
  = match h_notify h (s_notifs s) with
    | Some e => (Throw e, notified t o false s)
    | None => (Normal (), notified t o true s)
    end.
Proof. unfold showNotification. by destruct (h_notify h (s_notifs s)). Qed.

(** One step of a run, and the projections of a state. *)
Ltac mstep :=
  first [ rewrite bind_run | rewrite try_run | rewrite ret_run | rewrite throw_run
        | rewrite lift_run | rewrite ask_run | rewrite emit_run | rewrite console_log_run
        | rewrite console_error_run | rewrite detached_run | rewrite add_trace_add_trace ];
  cbn [fst snd app].
Ltac mrun := repeat mstep.

Ltac sproj :=
  cbn [s_notifs s_shown s_trace s_caches s_fetches add_trace notified set_caches].

Lemma effects_add_trace {A} (m : M A) h s r es :
  m h s = (r, add_trace es s) → effects m h s = es.
Proof. intros E. unfold effects. rewrite E. cbn. apply drop_app_length. Qed.

(** * The log relay *)

Lemma v3_forEach_run lt m d i clients h s :
  forEach_from i
    (λ client (_ : nat), now ← ask h_now; postMessage client (log_message lt m d now))
    clients h s
  = ((v3_deliver (log_message lt m d (h_now h)) clients).1,
     add_trace (v3_deliver (log_message lt m d (h_now h)) clients).2 s).
Proof.
  revert i s. induction clients as [|c rest IH]; intros i s; simpl.
  - by rewrite add_trace_nil.
  - mrun. unfold postMessage. destruct (cl_post c); mrun.
    + by rewrite add_trace_nil.
    + rewrite IH. destruct (v3_deliver _ rest) as [r es]. simpl.
      by rewrite add_trace_add_trace.
Qed.

(** [V3.sendLogToApp] returns normally and only extends the trace. *)
Lemma V3_sendLogToApp_run lt m d h s :
  V3.sendLogToApp lt m d h s = (Normal (), add_trace (V3_relay lt m d h) s).
Proof.
  unfold V3.sendLogToApp, V3_relay, clients_matchAll, forEach. mrun.
  destruct (h_matchAll h) as [e|]; mrun; [done|].
  rewrite v3_forEach_run. destruct (v3_deliver _ _) as [[] es]; mrun.
  - by rewrite app_nil_r.
  - by rewrite <- !app_assoc.
Qed.

Lemma v4_forEach_run msg i clients h s :
  forEach_from i
    (λ client index,
       try_catch
         (console_log
            [AVal (VStr ("[SW] Sending log to client " ++ nat_to_string (index + 1) ++ ":"));
             AVal msg] ;;
          postMessage client msg)
         (λ clientError,
            console_error
              [AVal (VStr ("[SW] Failed to send to client " ++ nat_to_string (index + 1) ++ ":"));
               AErr clientError]))
    clients h s
  = (Normal (), add_trace (v4_deliver i msg clients) s).
Proof.
  revert i s. induction clients as [|c rest IH]; intros i s; simpl.
  - by rewrite add_trace_nil.
  - mrun. unfold postMessage. destruct (cl_post c); mrun; by rewrite IH, add_trace_add_trace.
Qed.

(** [V4.sendLogToApp] returns normally and only extends the trace. *)
Lemma V4_sendLogToApp_run lt m d h s :
  V4.sendLogToApp lt m d h s = (Normal (), add_trace (V4_relay lt m d h) s).
Proof.
  unfold V4.sendLogToApp, V4_relay, clients_matchAll, forEach. mrun.
  destruct (h_matchAll h) as [e|]; mrun; [done|].
  rewrite v4_forEach_run. by mrun.
Qed.

Ltac pstep := first [ mstep | rewrite V3_sendLogToApp_run | rewrite V4_sendLogToApp_run ].
Ltac prun := repeat pstep.

Lemma V3_relay_log lt m d h : LogEvent lt m d ∈ V3_relay lt m d h.
Proof. unfold V3_relay. apply elem_of_cons. by left. Qed.

Lemma V4_relay_log lt m d h : LogEvent lt m d ∈ V4_relay lt m d h.
Proof. unfold V4_relay. apply elem_of_cons. by left. Qed.

Lemma relay_all_log relay logs h l :
  (∀ lt m d, LogEvent lt m d ∈ relay lt m d h) →
  l ∈ logs → LogEvent l.1.1 l.1.2 l.2 ∈ relay_all relay logs h.
Proof.
  intros Hr. unfold relay_all. induction logs as [|l' logs IH]; intros Hl.
  - by apply elem_of_nil in Hl.
  - cbn. apply elem_of_app.
    apply elem_of_cons in Hl as [->|Hl]; [left; apply Hr|right; auto].
Qed.

Lemma v4_deliver_reaches msg clients c i :
  c ∈ clients →
  match cl_post c with
  | None => PostMessage (cl_id c) msg ∈ v4_deliver i msg clients
  | Some e => ∃ label, ConsoleError [AVal (VStr label); AErr e] ∈ v4_deliver i msg clients
  end.
Proof.
  revert i. induction clients as [|c' rest IH]; intros i Hc.
  - by apply elem_of_nil in Hc.
  - apply elem_of_cons in Hc as [<-|Hc]; cbn [v4_deliver].
    + destruct (cl_post c) as [e|].
      * eexists. apply elem_of_cons. right. apply elem_of_cons. by left.
      * apply elem_of_cons. right. apply elem_of_cons. by left.
    + specialize (IH (S i) Hc). destruct (cl_post c) as [e|].
      * destruct IH as [label IH]. exists label. by do 2 (apply elem_of_cons; right).
      * by do 2 (apply elem_of_cons; right).
Qed.

(** X3.  The relay of [src/unnamed/part_000] does what the relay contract asks:
    it never throws; when the enumeration succeeds, every window client,
    controlled or not, is either handed the message or has its delivery
    failure logged, whatever happens with the other clients; when the
    enumeration fails, that failure is logged. *)
Lemma V4_relay_reaches_every_window lt m d h s :
  completion (V4.sendLogToApp lt m d) h s = Normal ()
  ∧ (h_matchAll h = None →
     ∀ c, c ∈ h_clients h → cl_type c = window →
       match cl_post c with
       | None =>
           PostMessage (cl_id c) (log_message lt m d (h_now h))
             ∈ effects (V4.sendLogToApp lt m d) h s
       | Some e =>
           ∃ label, ConsoleError [AVal (VStr label); AErr e]
                      ∈ effects (V4.sendLogToApp lt m d) h s
       end)
  ∧ (∀ e, h_matchAll h = Some e →
       ConsoleError [AVal (VStr "[SW] Failed to send log to app:"); AErr e]
         ∈ effects (V4.sendLogToApp lt m d) h s).
Proof.
  rewrite (effects_add_trace _ _ _ _ _ (V4_sendLogToApp_run lt m d h s)).
  unfold completion. rewrite V4_sendLogToApp_run. split; [done|]. unfold V4_relay. split.
  - intros -> c Hc Hw.
    assert (Hin : c ∈ filter (λ c, cl_type c = window ∧ (true || cl_controlled c)) (h_clients h)).
    { apply list_elem_of_filter. by repeat split. }
    pose proof (v4_deliver_reaches (log_message lt m d (h_now h)) _ c 0 Hin) as Hd.
    destruct (cl_post c) as [e|].
    + destruct Hd as [label Hd]. exists label.
      do 2 (apply elem_of_cons; right). apply elem_of_app. by left.
    + do 2 (apply elem_of_cons; right). apply elem_of_app. by left.
  - intros e ->. apply elem_of_cons. right. apply elem_of_cons. by left.
Qed.

(** * The push pipeline *)

Lemma V3_decode_run event h s :
  V3.decode event h s
  = (Normal (payload_of event), add_trace (relay_all V3_relay (decode_logs event) h) s).
Proof.
  unfold V3.decode, payload_of, decode_logs, relay_all.
  destruct (pe_data event) as [d|]; prun; simpl; rewrite ?app_nil_r; [|done].
  destruct (pmd_json d); prun; simpl; rewrite ?app_nil_r; [done|].
  destruct (pmd_text d); prun; simpl; by rewrite ?app_nil_r.
Qed.

Lemma V4_decode_run event h s :
  V4.decode event h s
  = (Normal (payload_of event), add_trace (relay_all V4_relay (decode_logs event) h) s).
Proof.
  unfold V4.decode, payload_of, decode_logs, relay_all.
  destruct (pe_data event) as [d|]; prun; simpl; rewrite ?app_nil_r; [|done].
  destruct (pmd_json d); prun; simpl; rewrite ?app_nil_r; [done|].
  destruct (pmd_text d); prun; simpl; by rewrite ?app_nil_r.
Qed.

Lemma V3_derive_options data title options :
  V3.derive data = Normal (title, options) → ∃ props, options = VObj props.
Proof.
  unfold V3.derive. destruct (Get data "title"), (Get data "body"), (Get data "data"); try done.
  intros [= <- <-]. eauto.
Qed.

Lemma V4_derive_options data title options :
  V4.derive data = Normal (title, options) → ∃ props, options = VObj props.
Proof.
  unfold V4.derive. destruct (Get data "title"), (Get data "body"), (Get data "data"); try done.
  intros [= <- <-]. eauto.
Qed.

Lemma V3_render_run title props h s :
  V3.render title (VObj props) h s = (Normal (), V3_render_state title (VObj props) h s).
Proof.
  unfold V3.render, V3_render_state, attempt_log. cbn [Get]. prun.
  rewrite showNotification_run. sproj.
  destruct (h_notify h (s_notifs s)) as [error|]; prun; [|done].
  rewrite showNotification_run. sproj.
  destruct (h_notify h (S (s_notifs s))) as [fallbackError|]; by prun.
Qed.

Lemma V4_render_run title props h s :
  V4.render title (VObj props) h s = (Normal (), V4_render_state title (VObj props) h s).
Proof.
  unfold V4.render, V4.render_debug, V4_render_state, V4_main_state, V4_debug_state, attempt_log.
  cbn [Get]. prun. rewrite showNotification_run. sproj.
  destruct (h_notify h (s_notifs s)) as [debugError|]; prun;
    rewrite showNotification_run; sproj;
    (destruct (h_notify h (S (s_notifs s))) as [error|]; prun; [|done]);
    rewrite showNotification_run; sproj;
    destruct (h_notify h (S (S (s_notifs s)))) as [fallbackError|]; by prun.
Qed.

(** The push listener of [src/public/sw.js] in closed form. *)
Lemma V3_on_push_run event h s :
  V3.on_push event h s
  = match V3.derive (payload_of event) with
    | Normal (title, options) =>
        (Normal (), V3_render_state title options h (add_trace (V3_prologue event h) s))
    | Throw e => (Throw e, add_trace (V3_prologue event h) s)
    end.
Proof.
  unfold V3.on_push, V3_prologue. prun. rewrite V3_decode_run. prun.
  rewrite <- !app_assoc.
  destruct (V3.derive (payload_of event)) as [[title options]|e] eqn:Hd; prun; [|done].
  destruct (V3_derive_options _ _ _ Hd) as [props ->]. by rewrite V3_render_run.
Qed.

(** The push listener of [src/unnamed/part_000] in closed form. *)
Lemma V4_on_push_run event h s :
  V4.on_push event h s
  = match V4.derive (payload_of event) with
    | Normal (title, options) =>
        (Normal (), V4_render_state title options h (add_trace (V4_prologue event h) s))
    | Throw e => (Throw e, add_trace (V4_prologue event h) s)
    end.
Proof.
  unfold V4.on_push, V4_prologue. prun. rewrite V4_decode_run. prun.
  rewrite <- !app_assoc.
  destruct (V4.derive (payload_of event)) as [[title options]|e] eqn:Hd; prun; [|done].
  destruct (V4_derive_options _ _ _ Hd) as [props ->]. by rewrite V4_render_run.
Qed.

Lemma V3_render_trace title options h s :
  ∃ es, s_trace (V3_render_state title options h s) = (s_trace s ++ es)%list
        ∧ ShowNotification title options ∈ es.
Proof.
  unfold V3_render_state.
  destruct (h_notify h (s_notifs s)); [destruct (h_notify h (S (s_notifs s)))|];
    sproj; rewrite <- ?app_assoc; eexists; (split; [reflexivity|]);
    rewrite !elem_of_app, ?elem_of_cons; auto 10.
Qed.

Lemma V4_render_trace title options h s :
  ∃ es, s_trace (V4_render_state title options h s) = (s_trace s ++ es)%list
        ∧ ShowNotification title options ∈ es.
Proof.
  unfold V4_render_state, V4_main_state, V4_debug_state. sproj.
  destruct (h_notify h (s_notifs s)); sproj;
    (destruct (h_notify h (S (s_notifs s))); [destruct (h_notify h (S (S (s_notifs s))))|]);
    sproj; rewrite <- ?app_assoc; eexists; (split; [reflexivity|]);
    rewrite !elem_of_app, ?elem_of_cons; auto 12.
Qed.

(** What the push listener of [src/public/sw.js] does once the fields are
    derived: it completes normally, has emitted the log events of the decode
    step, has requested the notification with the derived title and options,
    and that notification is what gets displayed when the host accepts the
    request. *)
Lemma V3_push_spec event h s title options :
  V3.derive (payload_of event) = Normal (title, options) →
  completion (V3.on_push event) h s = Normal ()
  ∧ (∀ l, l ∈ decode_logs event → LogEvent l.1.1 l.1.2 l.2 ∈ effects (V3.on_push event) h s)
  ∧ ShowNotification title options ∈ effects (V3.on_push event) h s
  ∧ (h_notify h (s_notifs s) = None →
     displayed (V3.on_push event) h s = [(title, options)]).
Proof.
  intros Hd. unfold completion, effects, displayed. rewrite V3_on_push_run, Hd. cbn [fst snd].
  destruct (V3_render_trace title options h (add_trace (V3_prologue event h) s))
    as (es & Htr & Hin).
  rewrite Htr. sproj. rewrite <- !app_assoc, drop_app_length.
  split; [done|]. split; [|split].
  - intros l Hl. unfold V3_prologue. rewrite !elem_of_app. left; right; right.
    apply relay_all_log; [intros; apply V3_relay_log|done].
  - rewrite elem_of_app. by right.
  - intros Hok. unfold V3_render_state. sproj. rewrite Hok. sproj. by rewrite drop_app_length.
Qed.

(** The same for [src/unnamed/part_000], whose render calls are numbered one
    later because the test notification comes first. *)
Lemma V4_push_spec event h s title options :
  V4.derive (payload_of event) = Normal (title, options) →
  completion (V4.on_push event) h s = Normal ()
  ∧ (∀ l, l ∈ decode_logs event → LogEvent l.1.1 l.1.2 l.2 ∈ effects (V4.on_push event) h s)
  ∧ ShowNotification title options ∈ effects (V4.on_push event) h s
  ∧ (h_notify h (S (s_notifs s)) = None →
     displayed (V4.on_push event) h s = (V4_debug_displayed h s ++ [(title, options)])%list).
Proof.
  intros Hd. unfold completion, effects, displayed. rewrite V4_on_push_run, Hd. cbn [fst snd].
  destruct (V4_render_trace title options h (add_trace (V4_prologue event h) s))
    as (es & Htr & Hin).
  rewrite Htr. sproj. rewrite <- !app_assoc, drop_app_length.
  split; [done|]. split; [|split].
  - intros l Hl. unfold V4_prologue. rewrite !elem_of_app. left. do 4 right.
    apply relay_all_log; [intros; apply V4_relay_log|done].
  - rewrite elem_of_app. by right.
  - intros Hok. unfold V4_render_state, V4_main_state, V4_debug_state, V4_debug_displayed. sproj.
    destruct (h_notify h (s_notifs s)); sproj; rewrite Hok; sproj;
      by rewrite <- ?app_assoc, drop_app_length.
Qed.

(** Everything the push listener of [src/public/sw.js] gets displayed. *)
Lemma V3_displayed event h s title options :
  V3.derive (payload_of event) = Normal (title, options) →
  displayed (V3.on_push event) h s
  = main_displayed V3.fallback_options title options h (s_notifs s).
Proof.
  intros Hd. unfold displayed, main_displayed. rewrite V3_on_push_run, Hd. cbn [snd].
  unfold V3_render_state. sproj.
  destruct (h_notify h (s_notifs s)); [destruct (h_notify h (S (s_notifs s)))|]; sproj;
    by rewrite ?drop_app_length, ?drop_all.
Qed.

(** Everything the push listener of [src/unnamed/part_000] gets displayed. *)
Lemma V4_displayed event h s title options :
  V4.derive (payload_of event) = Normal (title, options) →
  displayed (V4.on_push event) h s
  = (V4_debug_displayed h s
       ++ main_displayed V4.fallback_options title options h (S (s_notifs s)))%list.
Proof.
  intros Hd. unfold displayed, main_displayed, V4_debug_displayed.
  rewrite V4_on_push_run, Hd. cbn [snd].
  unfold V4_render_state, V4_main_state, V4_debug_state. sproj.
  destruct (h_notify h (s_notifs s)); sproj;
    (destruct (h_notify h (S (s_notifs s))); [destruct (h_notify h (S (S (s_notifs s))))|]);
    sproj; by rewrite <- ?app_assoc, ?drop_app_length, ?drop_all.
Qed.

Lemma main_displayed_default fallback_options h n :
  Get fallback_options "body" = Normal default_body →
  Forall is_default_notification
    (main_displayed fallback_options default_title (notification_options default_body (VObj []))
       h n).
Proof.
  intros Hf. unfold main_displayed.
  destruct (h_notify h n); [destruct (h_notify h (S n))|]; repeat constructor; done.
Qed.

(** * Claims about the push pipeline *)

(** A push event without payload: the handler emits the warning-level
    log "No data in push event" and requests the notification with the default
    title "Medication Reminder", the default body and the standard options;
    that notification is displayed when the host accepts the request, and
    whatever the host does, every notification displayed carries the default
    title and the default body (in [src/unnamed/part_000]: every one after the
    test notification). *)
Theorem push_without_payload h s :
  (LogEvent "warning" "⚠️ No data in push event" VNull
     ∈ effects (V3.on_push event_no_payload) h s
   ∧ ShowNotification default_title (notification_options default_body (VObj []))
       ∈ effects (V3.on_push event_no_payload) h s
   ∧ (h_notify h (s_notifs s) = None →
      displayed (V3.on_push event_no_payload) h s
      = [(default_title, notification_options default_body (VObj []))])
   ∧ Forall is_default_notification (displayed (V3.on_push event_no_payload) h s))
  ∧ (LogEvent "warning" "⚠️ No data in push event" VNull
       ∈ effects (V4.on_push event_no_payload) h s
     ∧ ShowNotification default_title (notification_options default_body (VObj []))
         ∈ effects (V4.on_push event_no_payload) h s
     ∧ (h_notify h (S (s_notifs s)) = None →
        displayed (V4.on_push event_no_payload) h s
        = (V4_debug_displayed h s
             ++ [(default_title, notification_options default_body (VObj []))])%list)
     ∧ ∃ rest, displayed (V4.on_push event_no_payload) h s
               = (V4_debug_displayed h s ++ rest)%list
               ∧ Forall is_default_notification rest).
Proof.
  split.
  - destruct (V3_push_spec event_no_payload h s default_title
                (notification_options default_body (VObj [])) eq_refl)
      as (_ & Hlog & Hshow & Hdisp).
    split; [|split; [done|split; [done|]]].
    + apply (Hlog ("warning", "⚠️ No data in push event", VNull)).
      apply elem_of_cons. by left.
    + rewrite (V3_displayed event_no_payload h s _ _ eq_refl).
      by apply main_displayed_default.
  - destruct (V4_push_spec event_no_payload h s default_title
                (notification_options default_body (VObj [])) eq_refl)
      as (_ & Hlog & Hshow & Hdisp).
    split; [|split; [done|split; [done|]]].
    + apply (Hlog ("warning", "⚠️ No data in push event", VNull)).
      apply elem_of_cons. by left.
    + eexists. split; [apply (V4_displayed event_no_payload h s _ _ eq_refl)|].
      by apply main_displayed_default.
Qed.

Lemma push_without_payload_witness :
  displayed (V3.on_push event_no_payload) quiet_host empty_state
  = [(default_title, notification_options default_body (VObj []))]
  ∧ displayed (V4.on_push event_no_payload) quiet_host empty_state
    = [(VStr "🧪 DEBUG: Push Event Received", V4.debug_options);
       (default_title, notification_options default_body (VObj []))].
Proof.
  split.
  - exact (proj1 (proj2 (proj2 (proj1 (push_without_payload quiet_host empty_state)))) eq_refl).
  - exact (proj1 (proj2 (proj2 (proj2 (push_without_payload quiet_host empty_state)))) eq_refl).
Defined.










(** C9.  Payload decode followed by field derivation gives the same result
    (the same title and options bundle, or the same thrown error) in
    [src/public/sw.js] and in [src/unnamed/part_000], for every push event,
    whatever the hosts and the states the two run in. *)
Theorem decode_and_derive_agree event h3 s3 h4 s4 :
  completion (data ← V3.decode event; lift (V3.derive data)) h3 s3
  = completion (data ← V4.decode event; lift (V4.derive data)) h4 s4.
Proof.
  unfold completion. rewrite !bind_run, V3_decode_run, V4_decode_run.
  by rewrite !lift_run.
Qed.

(** * The render fallback *)

Lemma render_requests_app es1 es2 :
  render_requests (es1 ++ es2) = (render_requests es1 ++ render_requests es2)%list.
Proof. apply omap_app. Qed.

Lemma v3_deliver_requests msg clients : render_requests (v3_deliver msg clients).2 = [].
Proof.
  induction clients as [|c rest IH]; [done|]. cbn [v3_deliver].
  destruct (cl_post c); [done|]. by destruct (v3_deliver msg rest).
Qed.

Lemma V3_relay_requests lt m d h : render_requests (V3_relay lt m d h) = [].
Proof.
  unfold V3_relay. cbn [app]. change (LogEvent lt m d :: ?l) with ([LogEvent lt m d] ++ l)%list.
  rewrite !render_requests_app. destruct (h_matchAll h); [done|].
  cbn zeta. rewrite render_requests_app, v3_deliver_requests.
  by destruct (v3_deliver _ _).1.
Qed.

Lemma relay_all_requests relay logs h :
  (∀ lt m d, render_requests (relay lt m d h) = []) →
  render_requests (relay_all relay logs h) = [].
Proof.
  intros Hr. unfold relay_all. induction logs as [|l logs IH]; [done|].
  cbn. by rewrite render_requests_app, Hr, IH.
Qed.

Lemma V3_prologue_requests event h : render_requests (V3_prologue event h) = [].
Proof.
  unfold V3_prologue. rewrite !render_requests_app, !V3_relay_requests.
  by rewrite relay_all_requests by (intros; apply V3_relay_requests).
Qed.

(** X9.  The relay never raises to the push listener, so the listener of
    [src/public/sw.js] does what C3 asks.  When the primary render call fails:
    the listener completes normally; it makes two render calls in all, the
    primary one and one fallback with the fixed title, the fixed body and the
    icon of the primary request; the failure is logged at error level; and if
    the fallback fails too, a second error-level log with another message is
    emitted and nothing is displayed. *)
Lemma V3_render_fallback event h s title options error :
  V3.derive (payload_of event) = Normal (title, options) →
  h_notify h (s_notifs s) = Some error →
  completion (V3.on_push event) h s = Normal ()
  ∧ render_calls (V3.on_push event) h s = 2
  ∧ render_requests (effects (V3.on_push event) h s)
    = [(title, options); (VStr "Medication Reminder", V3.fallback_options)]
  ∧ Get V3.fallback_options "body" = Normal (VStr "It's time for a medication dose")
  ∧ Get V3.fallback_options "icon" = Get options "icon"
  ∧ LogEvent "error" "❌ showNotification failed" (error_detail error (h_permission h))
      ∈ effects (V3.on_push event) h s
  ∧ (∀ fallbackError, h_notify h (S (s_notifs s)) = Some fallbackError →
       LogEvent "error" "❌ Even fallback notification failed" (VStr (message fallbackError))
         ∈ effects (V3.on_push event) h s
       ∧ displayed (V3.on_push event) h s = []).
Proof.
  intros Hd Hfail. unfold completion, render_calls, effects, displayed.
  rewrite V3_on_push_run, Hd. cbn [fst snd]. unfold V3_render_state. sproj. rewrite Hfail.
  split; [done|]. split; [|split; [|split; [done|split; [|split]]]].
  - destruct (h_notify h (S (s_notifs s))); sproj; lia.
  - destruct (h_notify h (S (s_notifs s))); sproj;
      rewrite <- !app_assoc, drop_app_length, !render_requests_app,
        V3_prologue_requests, !V3_relay_requests; done.
  - unfold V3.derive in Hd.
    destruct (Get (payload_of event) "title"), (Get (payload_of event) "body"),
      (Get (payload_of event) "data"); try done.
    by injection Hd as <- <-.
  - destruct (h_notify h (S (s_notifs s))); sproj;
      rewrite <- !app_assoc, drop_app_length, !elem_of_app;
      do 3 right; left; apply V3_relay_log.
  - intros fallbackError ->. sproj. split.
    + rewrite <- !app_assoc, drop_app_length, !elem_of_app.
      do 5 right. apply V3_relay_log.
    + by rewrite drop_all.
Qed.

Lemma v4_deliver_requests msg clients i : render_requests (v4_deliver i msg clients) = [].
Proof.
  revert i. induction clients as [|c rest IH]; intros i; [done|]. cbn [v4_deliver].
  change (?a :: ?b :: ?l) with ([a; b] ++ l)%list. rewrite render_requests_app, IH.
  by destruct (cl_post c).
Qed.

Lemma V4_relay_requests lt m d h : render_requests (V4_relay lt m d h) = [].
Proof.
  unfold V4_relay. destruct (h_matchAll h); [done|]. cbn zeta.
  change (?a :: ?b :: ?l) with ([a; b] ++ l)%list.
  by rewrite !render_requests_app, v4_deliver_requests.
Qed.

Lemma V4_prologue_requests event h : render_requests (V4_prologue event h) = [].
Proof.
  unfold V4_prologue. rewrite !render_requests_app, !V4_relay_requests.
  by rewrite relay_all_requests by (intros; apply V4_relay_requests).
Qed.

(** X10.  The listener of [src/unnamed/part_000] when the primary render call
    fails: it completes normally and makes three render calls in all, the test
    notification, the primary one and one fallback with the fixed title and
    the fixed body; the failure is logged at error level, and so is a failure
    of the fallback, with another message.  The icon of the fallback is not
    the icon of the primary request. *)
Lemma V4_render_fallback event h s title options error :
  V4.derive (payload_of event) = Normal (title, options) →
  h_notify h (S (s_notifs s)) = Some error →
  completion (V4.on_push event) h s = Normal ()
  ∧ render_calls (V4.on_push event) h s = 3
  ∧ render_requests (effects (V4.on_push event) h s)
    = [(VStr "🧪 DEBUG: Push Event Received", V4.debug_options);
       (title, options);
       (VStr "Medication Reminder", V4.fallback_options)]
  ∧ Get V4.fallback_options "body" = Normal (VStr "It's time for a medication dose")
  ∧ Get options "icon" = Normal (VStr "/navikinder-logo-256.png")
  ∧ Get V4.fallback_options "icon" = Normal (VStr "https://via.placeholder.com/192x192.png")
  ∧ LogEvent "error" "❌ Main showNotification failed" (error_detail error (h_permission h))
      ∈ effects (V4.on_push event) h s
  ∧ (∀ fallbackError, h_notify h (S (S (s_notifs s))) = Some fallbackError →
       LogEvent "error" "❌ Even fallback notification failed" (VStr (message fallbackError))
         ∈ effects (V4.on_push event) h s).
Proof.
  intros Hd Hfail. unfold completion, render_calls, effects.
  rewrite V4_on_push_run, Hd. cbn [fst snd].
  unfold V4_render_state, V4_main_state, V4_debug_state. sproj.
  split; [done|]. split; [|split; [|split; [done|split; [|split; [done|split]]]]].
  - destruct (h_notify h (s_notifs s)); sproj; rewrite Hfail;
      destruct (h_notify h (S (S (s_notifs s)))); sproj; lia.
  - destruct (h_notify h (s_notifs s)); sproj; rewrite Hfail;
      destruct (h_notify h (S (S (s_notifs s)))); sproj;
      rewrite <- !app_assoc, drop_app_length, !render_requests_app,
        V4_prologue_requests, !V4_relay_requests; done.
  - unfold V4.derive in Hd.
    destruct (Get (payload_of event) "title"), (Get (payload_of event) "body"),
      (Get (payload_of event) "data"); try done.
    by injection Hd as <- <-.
  - destruct (h_notify h (s_notifs s)); sproj; rewrite Hfail;
      destruct (h_notify h (S (S (s_notifs s)))); sproj;
      rewrite <- !app_assoc, drop_app_length, !elem_of_app;
      do 5 right; left; apply V4_relay_log.
  - intros fallbackError Hfb.
    destruct (h_notify h (s_notifs s)); sproj; rewrite Hfail, Hfb; sproj;
      rewrite <- !app_assoc, drop_app_length, !elem_of_app;
      do 7 right; apply V4_relay_log.
Qed.

(** C3, on [src/unnamed/part_000].  Every render call is rejected and the
    push has no payload: the listener makes three render requests, the test
    notification, the primary one and the fallback; the primary request
    carries the icon [/navikinder-logo-256.png], the fallback a placeholder
    image of another site. *)
Theorem V4_fallback_icon_differs :
  render_requests (effects (V4.on_push event_no_payload) host_renders_rejected empty_state)
  = [(VStr "🧪 DEBUG: Push Event Received", V4.debug_options);
     (VStr "Medication Reminder", notification_options default_body (VObj []));
     (VStr "Medication Reminder", V4.fallback_options)]
  ∧ Get (notification_options default_body (VObj [])) "icon"
    = Normal (VStr "/navikinder-logo-256.png")
  ∧ Get V4.fallback_options "icon" = Normal (VStr "https://via.placeholder.com/192x192.png")
  ∧ completion (V4.on_push event_no_payload) host_renders_rejected empty_state = Normal ().
Proof. by vm_compute. Qed.

(** C4, on [src/public/sw.js].  Three tabs are open, the first tab's
    [postMessage] throws and the third tab is not controlled: the relay
    enumerates the two controlled tabs only, stops at the first tab's failure,
    which becomes an unhandled rejection, and hands the message to no tab. *)
Theorem V3_relay_stops_at_failed_delivery :
  completion (clients_matchAll false window) host_three_tabs empty_state
  = Normal [mkClient 1 "https://app.example/overview" window true (Some DataCloneError) None;
            tab 2 "https://app.example/settings" true]
  ∧ effects (V3.sendLogToApp "info" "🔔 Push notification received" VNull)
      host_three_tabs empty_state
    = [LogEvent "info" "🔔 Push notification received" VNull;
       UnhandledRejection DataCloneError;
       ConsoleLog [AVal (VStr "[SW] 🔔 Push notification received"); AVal (VStr EmptyString)]]
  ∧ completion (V3.sendLogToApp "info" "🔔 Push notification received" VNull)
      host_three_tabs empty_state = Normal ().
Proof. by vm_compute. Qed.

(** On the same host the relay of [src/unnamed/part_000] logs the first tab's
    failure and hands the message to the second and the third tab. *)
Example V4_relay_three_tabs :
  let msg := log_message "info" "🔔 Push notification received" VNull
               "2025-01-01T08:00:00.000Z" in
  omap (λ e, match e with PostMessage c m => Some (c, m) | _ => None end)
    (effects (V4.sendLogToApp "info" "🔔 Push notification received" VNull)
       host_three_tabs empty_state)
  = [(2, msg); (3, msg)]
  ∧ console_errors
      (effects (V4.sendLogToApp "info" "🔔 Push notification received" VNull)
         host_three_tabs empty_state)
    = [[AVal (VStr "[SW] Failed to send to client 1:"); AErr DataCloneError]].
Proof. by vm_compute. Qed.

(** * Activation *)

Lemma filter_ext_in {A} (P Q : A → Prop) `{!∀ x, Decision (P x)} `{!∀ x, Decision (Q x)}
    (l : list A) :
  (∀ x, x ∈ l → P x ↔ Q x) → filter P l = filter Q l.
Proof.
  induction l as [|x l IH]; intros HPQ; [done|].
  rewrite !filter_cons.
  assert (Hx : P x ↔ Q x) by (apply HPQ, elem_of_cons; by left).
  rewrite IH by (intros y Hy; apply HPQ, elem_of_cons; by right).
  destruct (decide (P x)), (decide (Q x)); tauto.
Qed.

Lemma filter_all {A} (P : A → Prop) `{!∀ x, Decision (P x)} (l : list A) :
  (∀ x, P x) → filter P l = l.
Proof.
  intros HP. induction l as [|x l IH]; [done|].
  rewrite filter_cons, IH. destruct (decide (P x)) as [|Hn]; [done|]. by destruct Hn.
Qed.

Lemma set_caches_id s : set_caches (s_caches s) s = s.
Proof. by destruct s. Qed.

(** The deletions of the activate listener, when none of them is rejected,
    keep exactly the buckets that bear the current name or were not listed. *)
Lemma prune_run CACHE_NAME names h s r s' :
  promise_all
    ((λ cacheName,
        if bool_decide (cacheName ≠ CACHE_NAME)
        then (b ← caches_delete cacheName; mret (VBool b))
        else mret VUndefined) <$> names) h s = (Normal r, s') →
  s' = set_caches (filter (λ p, p.1 = CACHE_NAME ∨ p.1 ∉ names) (s_caches s)) s.
Proof.
  revert s r s'. induction names as [|n names IH]; intros s r s'.
  - cbn. intros [= <- <-]. rewrite <- (set_caches_id s) at 1. f_equal.
    symmetry. apply filter_all. intros p. right. apply not_elem_of_nil.
  - cbn [fmap list_fmap promise_all]. fold (@fmap list _).
    case_bool_decide as Hn.
    + rewrite bind_run. unfold caches_delete at 1.
      destruct (h_cache_delete h n); [by destruct (promise_all _ h s)|].
      rewrite ret_run.
      destruct (promise_all _ h _) as [[rs|e] s2] eqn:Hrest; [|done].
      intros [= <- <-]. rewrite (IH _ _ _ Hrest). sproj. unfold set_caches. sproj. f_equal.
      rewrite list_filter_filter. apply list_filter_iff. intros p.
      rewrite not_elem_of_cons. intuition congruence.
    + subst n. rewrite ret_run.
      destruct (promise_all _ h s) as [[rs|e] s2] eqn:Hrest; [|done].
      intros [= <- <-]. rewrite (IH _ _ _ Hrest). f_equal.
      apply list_filter_iff. intros p. rewrite not_elem_of_cons.
      destruct (decide (p.1 = CACHE_NAME)); intuition congruence.
Qed.

Lemma activate_run CACHE_NAME h s :
  completion (on_activate CACHE_NAME) h s = Normal () →
  s_caches (on_activate CACHE_NAME h s).2 = filter (λ p, p.1 = CACHE_NAME) (s_caches s).
Proof.
  unfold completion, on_activate. mrun. unfold caches_keys.
  destruct (h_cache_keys h); [done|]. sproj. mrun.
  destruct (promise_all _ h _) as [[r|e] s'] eqn:Hrun; [|done]. mrun. intros _.
  apply prune_run in Hrun. subst s'. sproj.
  apply filter_ext_in. intros p Hp. split; [|by left].
  intros [?|Hn]; [done|]. destruct Hn. apply list_elem_of_fmap. by exists p.
Qed.

(** C2.  Whatever the version tag [CACHE_NAME] and the buckets that exist:
    once the cleanup of the activate listener has completed, the buckets left
    are exactly those named [CACHE_NAME]; every bucket with another name is
    gone, the current bucket is kept with its content, and no other name
    remains. *)
Theorem activate_prunes_stale_buckets CACHE_NAME h s :
  completion (on_activate CACHE_NAME) h s = Normal () →
  let after := s_caches (on_activate CACHE_NAME h s).2 in
  after = filter (λ p, p.1 = CACHE_NAME) (s_caches s)
  ∧ (∀ n, n ∈ (s_caches s).*1 → n ≠ CACHE_NAME → n ∉ after.*1)
  ∧ (∀ bucket, (CACHE_NAME, bucket) ∈ s_caches s → (CACHE_NAME, bucket) ∈ after)
  ∧ (∀ n, n ∈ after.*1 → n = CACHE_NAME).
Proof.
  intros Hok after. subst after. rewrite (activate_run _ _ _ Hok).
  split; [done|]. split; [|split].
  - intros n _ Hne Hin. apply list_elem_of_fmap in Hin as (p & -> & Hp).
    by apply list_elem_of_filter in Hp as [? _].
  - intros bucket Hin. by apply list_elem_of_filter.
  - intros n Hin. apply list_elem_of_fmap in Hin as (p & -> & Hp).
    by apply list_elem_of_filter in Hp as [? _].
Qed.

Lemma activate_prunes_stale_buckets_witness :
  s_caches (V4.on_activate quiet_host state_three_buckets).2
  = [("medication-tracker-v4", {["https://app.example/manifest.json" := ok_page]})].
Proof.
  exact (proj1 (activate_prunes_stale_buckets V4.CACHE_NAME quiet_host state_three_buckets
                  eq_refl)).
Defined.

(** * Installation *)

(** C8.  The install listener never fails: its promise is fulfilled on every
    host and in every state.  When opening the bucket is rejected, or when
    populating it is, the error is handed to [console.error] with the text
    "Cache installation failed:" and nothing else follows. *)
Theorem install_survives_precache_failure CACHE_NAME h s :
  completion (on_install CACHE_NAME) h s = Normal ()
  ∧ (∀ e, h_cache_open h = Some e →
       effects (on_install CACHE_NAME) h s
       = [SkipWaiting; ConsoleError [AVal (VStr "Cache installation failed:"); AErr e]])
  ∧ (∀ e s', h_cache_open h = None →
       cache_addAll CACHE_NAME urlsToCache h
         (caches_open CACHE_NAME h (add_trace [SkipWaiting] s)).2 = (Throw e, s') →
       (on_install CACHE_NAME h s).2
       = add_trace [ConsoleError [AVal (VStr "Cache installation failed:"); AErr e]] s').
Proof.
  unfold completion, effects, on_install, precache. mrun. unfold caches_open at 1 2 3 4.
  destruct (h_cache_open h) as [e0|]; mrun.
  - split; [done|]. split; [|intros e s' Hopen; discriminate Hopen].
    intros e [= <-]. sproj. apply drop_app_length.
  - destruct (cache_addAll _ _ h _) as [[[]|e1] s1]; mrun;
      (split; [done|]); (split; [done|]); intros e s' _ Hrun.
    + discriminate Hrun.
    + by injection Hrun as <- <-.
Qed.

Lemma install_survives_precache_failure_witness :
  (V3.on_install host_offline empty_state).2
  = add_trace [ConsoleError [AVal (VStr "Cache installation failed:"); AErr FailedToFetch]]
      (cache_addAll V3.CACHE_NAME urlsToCache host_offline
         (caches_open V3.CACHE_NAME host_offline (add_trace [SkipWaiting] empty_state)).2).2.
Proof.
  exact (proj2 (proj2 (install_survives_precache_failure V3.CACHE_NAME host_offline empty_state))
           FailedToFetch _ eq_refl eq_refl).
Defined.

(** With the network down, the three precache fetches are made, the failure is
    logged, the bucket stays empty and the installation completes. *)
Example install_offline :
  V3.on_install host_offline empty_state
  = (Normal (),
     mkState [("medication-tracker-v3", ∅)] 3 0 []
       [SkipWaiting;
        NetFetch "https://app.example/";
        NetFetch "https://app.example/manifest.json";
        NetFetch "https://app.example/navikinder-logo-256.png";
        ConsoleError [AVal (VStr "Cache installation failed:"); AErr FailedToFetch]]).
Proof. by vm_compute. Qed.

(** * Network interception *)


(** X23.  A request absent from the cache that the network answers: one
    fetch, and its response is the result. *)
Lemma fetch_miss_answered request response h s :
  h_cache_match h = None →
  first_match request (s_caches s) = None →
  h_net h (s_fetches s) request = Normal response →
  completion (on_fetch request) h s = Normal response
  ∧ effects (on_fetch request) h s = [NetFetch request].
Proof.
  intros Hm Hc Hn. unfold completion, effects, on_fetch, caches_match, fetch. mrun.
  rewrite Hm, Hc. mrun. rewrite Hn. mrun. cbn. split; [done|]. apply drop_app_length.
Qed.

(** X24.  A failing cache lookup: the failure is logged and the request goes
    to the network once; the outcome of that fetch is the result. *)
Lemma fetch_lookup_failure request e h s :
  h_cache_match h = Some e →
  completion (on_fetch request) h s = h_net h (s_fetches s) request
  ∧ effects (on_fetch request) h s
    = [ConsoleError [AVal (VStr "Cache lookup failed:"); AErr e]; NetFetch request].
Proof.
  intros Hm. unfold completion, effects, on_fetch, caches_match, fetch. mrun.
  rewrite Hm. mrun. cbn. split; [done|]. rewrite <- app_assoc. apply drop_app_length.
Qed.

(** X25.  A request absent from the cache whose fetch fails: the error thrown
    again by the inner handler is caught by the handler meant for cache
    failures, which fetches a second time; the outcome of the second fetch is
    the result. *)
Lemma fetch_miss_refetched request e h s :
  h_cache_match h = None →
  first_match request (s_caches s) = None →
  h_net h (s_fetches s) request = Throw e →
  completion (on_fetch request) h s = h_net h (S (s_fetches s)) request
  ∧ effects (on_fetch request) h s
    = [NetFetch request;
       ConsoleError [AVal (VStr "Network fetch failed:"); AErr e];
       ConsoleError [AVal (VStr "Cache lookup failed:"); AErr e];
       NetFetch request].
Proof.
  intros Hm Hc Hn. unfold completion, effects, on_fetch, caches_match, fetch. mrun.
  rewrite Hm, Hc. mrun. rewrite Hn. mrun. cbn. split; [done|].
  rewrite <- !app_assoc. apply drop_app_length.
Qed.

(** C7, the second case.  The cache is empty, so the lookup succeeds and
    finds nothing, and the first fetch of the request fails: the failure is
    not returned; the listener reports a cache lookup failure, contacts the
    network a second time and returns that second outcome (here a
    response). *)
Theorem fetch_miss_failure_is_retried :
  completion (caches_match "https://app.example/api/doses") host_flaky_network empty_state
  = Normal None
  ∧ h_net host_flaky_network 0 "https://app.example/api/doses" = Throw FailedToFetch
  ∧ completion (on_fetch "https://app.example/api/doses") host_flaky_network empty_state
    = Normal ok_page
  ∧ effects (on_fetch "https://app.example/api/doses") host_flaky_network empty_state
    = [NetFetch "https://app.example/api/doses";
       ConsoleError [AVal (VStr "Network fetch failed:"); AErr FailedToFetch];
       ConsoleError [AVal (VStr "Cache lookup failed:"); AErr FailedToFetch];
       NetFetch "https://app.example/api/doses"]
  ∧ network_calls (on_fetch "https://app.example/api/doses") host_offline empty_state = 2.
Proof. by vm_compute. Qed.

(** * Notification clicks *)

(** The loop of the click listener: with a client whose URL includes the
    origin, the first such client is focused and no window is opened. *)
Lemma focus_or_open_first origin before client after h s :
  Forall (λ c, includes (cl_url c) origin = false) before →
  includes (cl_url client) origin = true →
  focus_or_open origin (before ++ client :: after) h s = client_focus client h s.
Proof.
  intros Hb Hc. induction Hb as [|c rest Hf _ IH]; cbn [app focus_or_open].
  - by rewrite Hc.
  - by rewrite Hf.
Qed.

(** The loop as a choice of target: the first client whose URL includes the
    origin is focused; without one a window is opened. *)
Lemma focus_or_open_target origin clientList h s :
  focus_or_open origin clientList h s
  = match head (filter (λ c, includes (cl_url c) origin = true) clientList) with
    | Some c => client_focus c h s
    | None => clients_openWindow "/overview" h s
    end.
Proof.
  induction clientList as [|c rest IH]; cbn [focus_or_open]; [done|].
  rewrite filter_cons. destruct (includes (cl_url c) origin) eqn:Hinc.
  - by rewrite decide_True.
  - by rewrite decide_False.
Qed.

(** The click listener in closed form. *)
Lemma click_run h s :
  on_notificationclick h s = (Normal (), add_trace (click_effects h) s).
Proof.
  unfold on_notificationclick, clients_matchAll, click_effects. mrun.
  destruct (h_matchAll h) as [e|]; mrun; [done|].
  rewrite focus_or_open_target. fold (click_target h).
  destruct (click_target h) as [c|].
  - unfold client_focus. mrun. destruct (cl_focus c); by mrun.
  - unfold clients_openWindow. mrun. destruct (h_openWindow h); by mrun.
Qed.

Lemma click_effects_run h s :
  effects on_notificationclick h s = click_effects h.
Proof. apply (effects_add_trace _ _ _ _ _ (click_run h s)). Qed.

(** The target is a window client of the host whose URL includes the
    worker's origin. *)
Lemma click_target_matches h c :
  click_target h = Some c →
  c ∈ h_clients h ∧ cl_type c = window ∧ includes (cl_url c) (h_origin h) = true.
Proof.
  unfold click_target. intros Hc. apply head_Some_elem_of in Hc.
  apply list_elem_of_filter in Hc as [Hinc Hc].
  apply list_elem_of_filter in Hc as [[Hw _] Hc]. done.
Qed.

(** The target is the first such client. *)
Lemma click_target_first h before client after :
  filter (λ c, cl_type c = window ∧ (true || cl_controlled c)) (h_clients h)
  = (before ++ client :: after)%list →
  Forall (λ c, includes (cl_url c) (h_origin h) = false) before →
  includes (cl_url client) (h_origin h) = true →
  click_target h = Some client.
Proof.
  intros Hl Hb Hc. unfold click_target. rewrite Hl. clear Hl.
  induction Hb as [|c rest Hf _ IH]; cbn [app]; rewrite filter_cons.
  - by rewrite decide_True.
  - rewrite decide_False; [done|]. by rewrite Hf.
Qed.

(** A focused client is the target. *)
Lemma click_focus_is_target h id :
  Focus id ∈ click_effects h → ∃ c, click_target h = Some c ∧ cl_id c = id.
Proof.
  unfold click_effects. intros Hin.
  apply elem_of_cons in Hin as [?|Hin]; [done|].
  destruct (h_matchAll h).
  { apply elem_of_cons in Hin as [?|Hin]; [done|]. by apply elem_of_nil in Hin. }
  destruct (click_target h) as [c|].
  - exists c. split; [done|].
    apply elem_of_cons in Hin as [Heq|Hin]; [congruence|].
    destruct (cl_focus c).
    + apply elem_of_cons in Hin as [?|Hin]; [done|]. by apply elem_of_nil in Hin.
    + by apply elem_of_nil in Hin.
  - apply elem_of_cons in Hin as [?|Hin]; [done|].
    destruct (h_openWindow h).
    + apply elem_of_cons in Hin as [?|Hin]; [done|]. by apply elem_of_nil in Hin.
    + by apply elem_of_nil in Hin.
Qed.

(** On a host that lists the clients of the worker's origin, a focused
    client is an open window of that origin whose URL includes it. *)
Lemma click_focus_same_origin h s open id :
  h_clients h = listed (h_origin h) open →
  Focus id ∈ effects on_notificationclick h s →
  ∃ w, w ∈ open ∧ bw_origin w = h_origin h ∧ cl_type (bw_client w) = window
       ∧ cl_id (bw_client w) = id
       ∧ includes (cl_url (bw_client w)) (h_origin h) = true.
Proof.
  intros Hl Hin. rewrite click_effects_run in Hin.
  apply click_focus_is_target in Hin as (c & Hc & Hid).
  apply click_target_matches in Hc as (Hc & Hw & Hinc).
  rewrite Hl in Hc. unfold listed in Hc.
  apply list_elem_of_fmap in Hc as (w & -> & Hwin).
  apply list_elem_of_filter in Hwin as [Ho Hwin].
  by exists w.
Qed.

(** X27.  Without a window whose URL includes the origin, the click listener
    opens one window at [/overview]. *)
Lemma click_opens_window h s :
  h_matchAll h = None →
  Forall (λ c, includes (cl_url c) (h_origin h) = false)
    (filter (λ c, cl_type c = window ∧ (true || cl_controlled c)) (h_clients h)) →
  h_openWindow h = None →
  on_notificationclick h s
  = (Normal (), add_trace [NotificationClose; OpenWindow "/overview"] s).
Proof.
  intros Hm Hnone Ho. unfold on_notificationclick, clients_matchAll. mrun. rewrite Hm. mrun.
  induction Hnone as [|c rest Hf _ IH]; cbn [focus_or_open].
  - unfold clients_openWindow. mrun. rewrite Ho. by mrun.
  - by rewrite Hf.
Qed.

(** X28.  With one, the first such window in the host's enumeration is
    focused and no window is opened. *)
Lemma click_focuses_first h s before client after :
  h_matchAll h = None →
  filter (λ c, cl_type c = window ∧ (true || cl_controlled c)) (h_clients h)
  = (before ++ client :: after)%list →
  Forall (λ c, includes (cl_url c) (h_origin h) = false) before →
  includes (cl_url client) (h_origin h) = true →
  cl_focus client = None →
  on_notificationclick h s
  = (Normal (), add_trace [NotificationClose; Focus (cl_id client)] s).
Proof.
  intros Hm Hl Hb Hc Hf. unfold on_notificationclick, clients_matchAll. mrun.
  rewrite Hm, Hl. mrun. rewrite (focus_or_open_first _ _ _ _ _ _ Hb Hc).
  unfold client_focus. mrun. rewrite Hf. by mrun.
Qed.

(** C10 as stated fails: a window of another origin is not a client of the
    worker, whatever its URL contains.  With only the window at
    [https://portal.example/redirect?to=https://app.example] open, whose URL
    contains the worker's origin [https://app.example], the host lists no
    client, and a click focuses nothing and opens a new window; and on every
    host that lists the clients of the worker's origin, a focused client is a
    window of that origin. *)
Lemma foreign_window_is_not_focused :
  bw_origin portal_window = url_origin (cl_url (bw_client portal_window))
  ∧ bw_origin portal_window ≠ h_origin (host_with_windows [portal_window])
  ∧ cl_type (bw_client portal_window) = window
  ∧ includes (cl_url (bw_client portal_window)) (h_origin (host_with_windows [portal_window]))
    = true
  ∧ h_clients (host_with_windows [portal_window]) = []
  ∧ effects on_notificationclick (host_with_windows [portal_window]) empty_state
    = [NotificationClose; OpenWindow "/overview"]
  ∧ completion on_notificationclick (host_with_windows [portal_window]) empty_state
    = Normal ()
  ∧ ∀ h s open id,
      h_clients h = listed (h_origin h) open →
      Focus id ∈ effects on_notificationclick h s →
      ∃ w, w ∈ open ∧ bw_origin w = h_origin h ∧ cl_id (bw_client w) = id.
Proof.
  do 7 (split; [by vm_compute|]).
  intros h s open id Hl Hin.
  destruct (click_focus_same_origin h s open id Hl Hin) as (w & Hw & Ho & _ & Hid & _).
  by exists w.
Qed.

(** C10, amended.  The click listener matches the clients the host lists,
    which are windows of the worker's origin, by substring containment of
    the origin in the client's URL: a focused client is an open window of the
    worker's origin whose URL contains the origin; the first listed window
    whose URL contains it is focused and no window is opened; a listed window
    whose URL does not contain it is passed over, and when no listed window's
    URL contains it a new window is opened at [/overview]. *)
Theorem click_matches_listed_windows h s open :
  h_clients h = listed (h_origin h) open →
  (∀ id, Focus id ∈ effects on_notificationclick h s →
         ∃ w, w ∈ open ∧ bw_origin w = h_origin h ∧ cl_type (bw_client w) = window
              ∧ cl_id (bw_client w) = id
              ∧ includes (cl_url (bw_client w)) (h_origin h) = true)
  ∧ (h_matchAll h = None →
     ∀ before client after,
       filter (λ c, cl_type c = window ∧ (true || cl_controlled c)) (h_clients h)
       = (before ++ client :: after)%list →
       Forall (λ c, includes (cl_url c) (h_origin h) = false) before →
       includes (cl_url client) (h_origin h) = true →
       effects on_notificationclick h s
       = NotificationClose :: Focus (cl_id client) ::
         match cl_focus client with
         | Some e =>
             [ConsoleError [AVal (VStr "Failed to handle notification click:"); AErr e]]
         | None => []
         end)
  ∧ (h_matchAll h = None →
     Forall (λ c, includes (cl_url c) (h_origin h) = false)
       (filter (λ c, cl_type c = window ∧ (true || cl_controlled c)) (h_clients h)) →
     effects on_notificationclick h s
     = NotificationClose :: OpenWindow "/overview" ::
       match h_openWindow h with
       | Some e =>
           [ConsoleError [AVal (VStr "Failed to handle notification click:"); AErr e]]
       | None => []
       end).
Proof.
  intros Hl. split; [|split].
  - intros id. by apply click_focus_same_origin.
  - intros Hm before client after Hf Hb Hc.
    rewrite click_effects_run. unfold click_effects.
    by rewrite Hm, (click_target_first h before client after Hf Hb Hc).
  - intros Hm Hnone. rewrite click_effects_run. unfold click_effects, click_target.
    rewrite Hm.
    destruct (head _) as [c|] eqn:Hc; [|done].
    apply head_Some_elem_of in Hc. apply list_elem_of_filter in Hc as [Hinc Hc].
    rewrite Forall_forall in Hnone. apply Hnone in Hc. congruence.
Qed.

(** With the portal window, a blank popup of the application and an
    application page open, the host lists the popup and the page; the popup's
    URL [about:blank] does not contain the origin, and the page is focused. *)
Lemma click_matches_listed_windows_witness :
  h_clients (host_with_windows [portal_window; blank_popup; app_window])
  = [bw_client blank_popup; bw_client app_window]
  ∧ effects on_notificationclick
      (host_with_windows [portal_window; blank_popup; app_window]) empty_state
    = [NotificationClose; Focus 9].
Proof.
  split; [by vm_compute|].
  exact (proj1 (proj2 (click_matches_listed_windows
                         (host_with_windows [portal_window; blank_popup; app_window])
                         empty_state [portal_window; blank_popup; app_window] eq_refl))
           eq_refl [bw_client blank_popup] (bw_client app_window) [] eq_refl
           ltac:(repeat constructor) eq_refl).
Defined.

Example url_origin_samples :
  url_origin "https://portal.example/redirect?to=https://app.example" = "https://portal.example"
  ∧ url_origin "https://app.example/overview" = "https://app.example"
  ∧ url_origin "https://app.example:8443/overview?x=1" = "https://app.example:8443".
Proof. by vm_compute. Qed.

(** * More about the log relay *)

Lemma relay_effects_V3 lt m d h s :
  effects (V3.sendLogToApp lt m d) h s = V3_relay lt m d h.
Proof. apply (effects_add_trace _ _ _ _ _ (V3_sendLogToApp_run lt m d h s)). Qed.

Lemma relay_effects_V4 lt m d h s :
  effects (V4.sendLogToApp lt m d) h s = V4_relay lt m d h.
Proof. apply (effects_add_trace _ _ _ _ _ (V4_sendLogToApp_run lt m d h s)). Qed.

Lemma v3_deliver_posts msg clients c msg' :
  PostMessage c msg' ∈ (v3_deliver msg clients).2 →
  msg' = msg ∧ ∃ client, client ∈ clients ∧ cl_id client = c ∧ cl_post client = None.
Proof.
  induction clients as [|c0 rest IH]; cbn [v3_deliver].
  - intros Hin. by apply elem_of_nil in Hin.
  - destruct (cl_post c0) eqn:Hp.
    + intros Hin. by apply elem_of_nil in Hin.
    + destruct (v3_deliver msg rest) as [r es]. cbn [snd] in *.
      intros [Heq|Hin]%elem_of_cons.
      * injection Heq as -> ->. split; [done|]. exists c0. split; [apply elem_of_cons; by left|done].
      * destruct (IH Hin) as (-> & client & Hc & Hid & Hpost). split; [done|].
        exists client. split; [apply elem_of_cons; by right|done].
Qed.

Lemma v3_deliver_healthy msg clients :
  Forall (λ c, cl_post c = None) clients →
  v3_deliver msg clients = (Normal (), (λ c, PostMessage (cl_id c) msg) <$> clients).
Proof.
  induction 1 as [|c rest Hc _ IH]; [done|]. cbn [v3_deliver]. by rewrite Hc, IH.
Qed.

(** X1.  The relay of [src/public/sw.js], as it behaves: it never raises to
    its caller; whatever it hands to a client is the SW_LOG message with the
    given level, text and detail, and the client is a window that the worker
    controls; when the enumeration succeeds and no controlled window's
    [postMessage] throws, every controlled window gets the message. *)
Theorem V3_relay_delivery lt m d h s :
  completion (V3.sendLogToApp lt m d) h s = Normal ()
  ∧ (∀ c msg, PostMessage c msg ∈ effects (V3.sendLogToApp lt m d) h s →
       msg = log_message lt m d (h_now h)
       ∧ ∃ client, client ∈ h_clients h ∧ cl_id client = c ∧ cl_type client = window
                   ∧ cl_controlled client = true ∧ cl_post client = None)
  ∧ (h_matchAll h = None →
     (∀ client, client ∈ h_clients h → cl_type client = window →
                cl_controlled client = true → cl_post client = None) →
     ∀ client, client ∈ h_clients h → cl_type client = window →
               cl_controlled client = true →
       PostMessage (cl_id client) (log_message lt m d (h_now h))
         ∈ effects (V3.sendLogToApp lt m d) h s).
Proof.
  rewrite relay_effects_V3. unfold completion. rewrite V3_sendLogToApp_run.
  split; [done|]. unfold V3_relay. split.
  - intros c msg Hin. apply elem_of_cons in Hin as [Hin|Hin]; [done|].
    apply elem_of_app in Hin as [Hin|Hin];
      [|apply elem_of_cons in Hin as [Hin|Hin]; [done|by apply elem_of_nil in Hin]].
    destruct (h_matchAll h).
    { apply elem_of_cons in Hin as [Hin|Hin]; [done|by apply elem_of_nil in Hin]. }
    cbn zeta in Hin. apply elem_of_app in Hin as [Hin|Hin].
    + apply v3_deliver_posts in Hin as (-> & client & Hc & Hid & Hpost). split; [done|].
      apply list_elem_of_filter in Hc as [[Hw Hctl] Hc]. cbn [orb] in Hctl.
      apply Is_true_true in Hctl. by exists client.
    + destruct (v3_deliver _ _).1; [by apply elem_of_nil in Hin|].
      apply elem_of_cons in Hin as [Hin|Hin]; [done|by apply elem_of_nil in Hin].
  - intros -> Hall client Hc Hw Hctl. cbn zeta.
    rewrite v3_deliver_healthy.
    + apply elem_of_cons. right. apply elem_of_app. left. apply elem_of_app. left.
      cbn [snd]. apply (list_elem_of_fmap_2 (λ c, PostMessage (cl_id c) _)).
      apply list_elem_of_filter. repeat split; [done| |done].
      cbn [orb]. by apply Is_true_true.
    + apply Forall_forall. intros c [[? Hctl'] ?]%list_elem_of_filter.
      cbn [orb] in Hctl'. apply Is_true_true in Hctl'. by apply Hall.
Qed.

Lemma v4_deliver_posts msg clients i c msg' :
  PostMessage c msg' ∈ v4_deliver i msg clients →
  msg' = msg ∧ ∃ client, client ∈ clients ∧ cl_id client = c ∧ cl_post client = None.
Proof.
  revert i. induction clients as [|c0 rest IH]; intros i; cbn [v4_deliver].
  - intros Hin. by apply elem_of_nil in Hin.
  - intros [Heq|[Heq|Hin]%elem_of_cons]%elem_of_cons; [done| |].
    + destruct (cl_post c0) eqn:Hp; [done|]. injection Heq as -> ->. split; [done|].
      exists c0. split; [apply elem_of_cons; by left|done].
    + destruct (IH _ Hin) as (-> & client & Hc & Hid & Hpost). split; [done|].
      exists client. split; [apply elem_of_cons; by right|done].
Qed.

(** X2.  What the relay of [src/unnamed/part_000] hands to a client is the
    SW_LOG message with the given level, text and detail and the host's
    current time, and the client is a window (never a worker client) whose
    [postMessage] did not throw. *)
Theorem V4_relay_posts lt m d h s c msg :
  PostMessage c msg ∈ effects (V4.sendLogToApp lt m d) h s →
  msg = log_message lt m d (h_now h)
  ∧ ∃ client, client ∈ h_clients h ∧ cl_id client = c ∧ cl_type client = window
              ∧ cl_post client = None.
Proof.
  rewrite relay_effects_V4. unfold V4_relay. intros Hin.
  apply elem_of_cons in Hin as [Hin|Hin]; [done|].
  destruct (h_matchAll h).
  { apply elem_of_cons in Hin as [Hin|Hin]; [done|by apply elem_of_nil in Hin]. }
  cbn zeta in Hin. apply elem_of_cons in Hin as [Hin|Hin]; [done|].
  apply elem_of_app in Hin as [Hin|Hin].
  - apply v4_deliver_posts in Hin as (-> & client & Hc & Hid & Hpost). split; [done|].
    apply list_elem_of_filter in Hc as [[Hw _] Hc]. by exists client.
  - apply elem_of_cons in Hin as [Hin|Hin]; [done|by apply elem_of_nil in Hin].
Qed.

Lemma V4_relay_posts_witness :
  log_message "info" "🔔 Push notification received" VNull "2025-01-01T08:00:00.000Z"
  = log_message "info" "🔔 Push notification received" VNull (h_now host_three_tabs)
  ∧ ∃ client, client ∈ h_clients host_three_tabs ∧ cl_id client = 3
              ∧ cl_type client = window ∧ cl_post client = None.
Proof.
  apply (V4_relay_posts "info" "🔔 Push notification received" VNull
           host_three_tabs empty_state 3).
  vm_compute. repeat (first [apply list_elem_of_here | apply list_elem_of_further]).
Defined.

Lemma V4_relay_reaches_every_window_witness :
  PostMessage 3
    (log_message "info" "🔔 Push notification received" VNull (h_now host_three_tabs))
    ∈ effects (V4.sendLogToApp "info" "🔔 Push notification received" VNull)
        host_three_tabs empty_state.
Proof.
  exact (proj1 (proj2 (V4_relay_reaches_every_window "info" "🔔 Push notification received"
                         VNull host_three_tabs empty_state))
           eq_refl (tab 3 "https://app.example/" false)
           ltac:(repeat (first [apply list_elem_of_here | apply list_elem_of_further]))
           eq_refl).
Defined.

(** * The initial log *)

Lemma v3_initial_forEach_run i clients h s :
  forEach_from i
    (λ client (_ : nat),
       console_log [AVal (VStr "📤 Sending initial log to client")] ;;
       dataTimestamp ← ask h_now;
       timestamp ← ask h_now;
       postMessage client
         (VObj [("type", VStr "SW_LOG"); ("logType", VStr "info");
                ("message", VStr "🚀 Service Worker is active and ready");
                ("data", VObj [("timestamp", VStr dataTimestamp)]);
                ("timestamp", VStr timestamp)]))
    clients h s
  = ((v3_initial_deliver (initial_message (h_now h)) clients).1,
     add_trace (v3_initial_deliver (initial_message (h_now h)) clients).2 s).
Proof.
  revert i s. induction clients as [|c rest IH]; intros i s; simpl.
  - by rewrite add_trace_nil.
  - mrun. unfold postMessage. destruct (cl_post c); mrun; [done|].
    rewrite IH. destruct (v3_initial_deliver _ rest) as [r es]. simpl.
    by rewrite add_trace_add_trace.
Qed.

Lemma V3_sendInitialLog_run h s :
  V3.sendInitialLog h s = (Normal (), add_trace (V3_initial_trace h) s).
Proof.
  unfold V3.sendInitialLog, V3_initial_trace, clients_matchAll, forEach. mrun.
  destruct (h_matchAll h) as [e|]; mrun; [done|].
  rewrite v3_initial_forEach_run. cbn zeta.
  destruct (v3_initial_deliver _ _) as [[[]|e] es]; mrun; [by rewrite app_nil_r|done].
Qed.

Lemma v3_initial_deliver_trace msg clients :
  (∀ e, UnhandledRejection e ∉ (v3_initial_deliver msg clients).2)
  ∧ (∀ c msg', PostMessage c msg' ∈ (v3_initial_deliver msg clients).2 →
       msg' = msg ∧ ∃ client, client ∈ clients ∧ cl_id client = c ∧ cl_post client = None)
  ∧ (∀ client e, client ∈ clients → cl_post client = Some e →
       ∃ e', (v3_initial_deliver msg clients).1 = Throw e').
Proof.
  induction clients as [|c0 rest (IHu & IHp & IHt)]; cbn [v3_initial_deliver].
  - split; [intros e Hin; by apply elem_of_nil in Hin|].
    split; [intros c msg' Hin; by apply elem_of_nil in Hin|].
    intros client e Hin. by apply elem_of_nil in Hin.
  - destruct (cl_post c0) as [e0|] eqn:Hp0.
    + cbn [fst snd]. split; [|split].
      * intros e [Hin|Hin]%elem_of_cons; [done|by apply elem_of_nil in Hin].
      * intros c msg' [Hin|Hin]%elem_of_cons; [done|by apply elem_of_nil in Hin].
      * intros _ _ _ _. by exists e0.
    + destruct (v3_initial_deliver msg rest) as [r es]. cbn [fst snd] in *. split; [|split].
      * intros e [Hin|[Hin|Hin]%elem_of_cons]%elem_of_cons; [done|done|]. by apply (IHu e).
      * intros c msg' [Hin|[Hin|Hin]%elem_of_cons]%elem_of_cons; [done| |].
        -- injection Hin as -> ->. split; [done|]. exists c0.
           split; [apply elem_of_cons; by left|done].
        -- destruct (IHp _ _ Hin) as (-> & client & Hc & Hid & Hpost). split; [done|].
           exists client. split; [apply elem_of_cons; by right|done].
      * intros client e [->|Hin]%elem_of_cons Hpost; [congruence|]. by apply (IHt client e).
Qed.

(** X4.  [sendInitialLog] of [src/public/sw.js] never raises and leaves no
    rejection unhandled: a rejected enumeration, or a [postMessage] that
    throws, is handed to [console.error] with the text "Failed to send
    initial log:".  What it hands to a client is the "active and ready"
    message, whose detail holds the time stamp, and the client is a window
    that the worker controls. *)
Theorem V3_sendInitialLog_contained h s :
  completion V3.sendInitialLog h s = Normal ()
  ∧ (∀ e, UnhandledRejection e ∉ effects V3.sendInitialLog h s)
  ∧ (∀ e, h_matchAll h = Some e →
       ConsoleError [AVal (VStr "❌ Failed to send initial log:"); AErr e]
         ∈ effects V3.sendInitialLog h s)
  ∧ (h_matchAll h = None →
     ∀ client e, client ∈ h_clients h → cl_type client = window →
                 cl_controlled client = true → cl_post client = Some e →
       ∃ e', ConsoleError [AVal (VStr "❌ Failed to send initial log:"); AErr e']
               ∈ effects V3.sendInitialLog h s)
  ∧ (∀ c msg, PostMessage c msg ∈ effects V3.sendInitialLog h s →
       msg = initial_message (h_now h)
       ∧ ∃ client, client ∈ h_clients h ∧ cl_id client = c ∧ cl_type client = window
                   ∧ cl_controlled client = true ∧ cl_post client = None).
Proof.
  rewrite (effects_add_trace _ _ _ _ _ (V3_sendInitialLog_run h s)).
  unfold completion. rewrite V3_sendInitialLog_run. split; [done|].
  unfold V3_initial_trace.
  destruct (h_matchAll h) as [e0|].
  - split; [|split; [|split; [done|]]].
    + intros e [Hin|[Hin|Hin]%elem_of_cons]%elem_of_cons; [done|done|by apply elem_of_nil in Hin].
    + intros e [= <-]. apply elem_of_cons. right. apply elem_of_cons. by left.
    + intros c msg [Hin|[Hin|Hin]%elem_of_cons]%elem_of_cons;
        [done|done|by apply elem_of_nil in Hin].
  - cbn zeta.
    destruct (v3_initial_deliver_trace (initial_message (h_now h))
                (filter (λ c, cl_type c = window ∧ (false || cl_controlled c)) (h_clients h)))
      as (Hu & Hp & Ht).
    split; [|split; [done|split]].
    + intros e [Hin|[Hin|Hin]%elem_of_cons]%elem_of_cons; [done|done|].
      apply elem_of_app in Hin as [Hin|Hin]; [by apply (Hu e)|].
      destruct (v3_initial_deliver _ _).1; [by apply elem_of_nil in Hin|].
      apply elem_of_cons in Hin as [Hin|Hin]; [done|by apply elem_of_nil in Hin].
    + intros _ client e Hc Hw Hctl Hpost.
      destruct (Ht client e) as [e' He']; [|done|].
      { apply list_elem_of_filter. repeat split; [done| |done].
        cbn [orb]. by apply Is_true_true. }
      exists e'. rewrite He'. do 2 (apply elem_of_cons; right). apply elem_of_app. right.
      apply elem_of_cons. by left.
    + intros c msg [Hin|[Hin|Hin]%elem_of_cons]%elem_of_cons; [done|done|].
      apply elem_of_app in Hin as [Hin|Hin].
      * destruct (Hp _ _ Hin) as (-> & client & Hc & Hid & Hpost). split; [done|].
        apply list_elem_of_filter in Hc as [[Hw Hctl] Hc]. cbn [orb] in Hctl.
        apply Is_true_true in Hctl. by exists client.
      * destruct (v3_initial_deliver _ _).1; [by apply elem_of_nil in Hin|].
        apply elem_of_cons in Hin as [Hin|Hin]; [done|by apply elem_of_nil in Hin].
Qed.

(** X5.  [sendInitialLog] of [src/unnamed/part_000] never raises, and when the
    enumeration succeeds it hands the info-level message "Service Worker is
    active and ready" to every window client, controlled or not, whose
    [postMessage] does not throw. *)
Theorem V4_sendInitialLog_reaches h s :
  completion V4.sendInitialLog h s = Normal ()
  ∧ (h_matchAll h = None →
     ∀ client, client ∈ h_clients h → cl_type client = window → cl_post client = None →
       PostMessage (cl_id client)
         (log_message "info" "🚀 Service Worker is active and ready" VNull (h_now h))
         ∈ effects V4.sendInitialLog h s).
Proof.
  assert (Hrun : V4.sendInitialLog h s
                 = (Normal (),
                    add_trace
                      (ConsoleLog [AVal (VStr "📡 Service Worker attempting to send initial log")]
                       :: V4_relay "info" "🚀 Service Worker is active and ready" VNull h) s)).
  { unfold V4.sendInitialLog. by prun. }
  rewrite (effects_add_trace _ _ _ _ _ Hrun). unfold completion. rewrite Hrun.
  split; [done|]. intros Hm client Hc Hw Hpost.
  apply elem_of_cons. right. unfold V4_relay. rewrite Hm. cbn zeta.
  do 2 (apply elem_of_cons; right). apply elem_of_app. left.
  assert (Hin : client ∈ filter (λ c, cl_type c = window ∧ (true || cl_controlled c))
                             (h_clients h)).
  { apply list_elem_of_filter. by repeat split. }
  pose proof (v4_deliver_reaches
                (log_message "info" "🚀 Service Worker is active and ready" VNull (h_now h))
                _ client 0 Hin) as Hd.
  by rewrite Hpost in Hd.
Qed.

(** * The message listener *)

Lemma log_events_app es1 es2 :
  log_events (es1 ++ es2) = (log_events es1 ++ log_events es2)%list.
Proof. apply omap_app. Qed.

Lemma v3_deliver_logs msg clients : log_events (v3_deliver msg clients).2 = [].
Proof.
  induction clients as [|c rest IH]; [done|]. cbn [v3_deliver].
  destruct (cl_post c); [done|]. by destruct (v3_deliver msg rest).
Qed.

Lemma V3_relay_logs lt m d h : log_events (V3_relay lt m d h) = [(lt, m, d)].
Proof.
  unfold V3_relay. cbn [app]. change (LogEvent lt m d :: ?l) with ([LogEvent lt m d] ++ l)%list.
  rewrite !log_events_app. destruct (h_matchAll h); [done|].
  cbn zeta. rewrite log_events_app, v3_deliver_logs.
  by destruct (v3_deliver _ _).1.
Qed.

Lemma v4_deliver_logs msg clients i : log_events (v4_deliver i msg clients) = [].
Proof.
  revert i. induction clients as [|c rest IH]; intros i; [done|]. cbn [v4_deliver].
  change (?a :: ?b :: ?l) with ([a; b] ++ l)%list. rewrite log_events_app, IH.
  by destruct (cl_post c).
Qed.

Lemma V4_relay_logs lt m d h : log_events (V4_relay lt m d h) = [(lt, m, d)].
Proof.
  unfold V4_relay. change (LogEvent lt m d :: ?l) with ([LogEvent lt m d] ++ l)%list.
  rewrite log_events_app. destruct (h_matchAll h); [done|]. cbn zeta.
  change (?a :: ?l) with ([a] ++ l)%list at 2.
  by rewrite !log_events_app, v4_deliver_logs.
Qed.

Lemma relay_all_logs relay logs h :
  (∀ lt m d, log_events (relay lt m d h) = [(lt, m, d)]) →
  log_events (relay_all relay logs h) = logs.
Proof.
  intros Hr. unfold relay_all. induction logs as [|[[lt m] d] logs IH]; [done|].
  cbn. by rewrite log_events_app, Hr, IH.
Qed.

Lemma has_type_other data type :
  (∀ props, data = VObj props → own_property props "type" ≠ Some (VStr type)) →
  has_type data type = Normal false.
Proof.
  intros Hno. unfold has_type. destruct (ToBoolean data) eqn:Ht; [|done].
  destruct data as [| |b|n|t|xs|props]; try done.
  cbn [Get]. specialize (Hno props eq_refl).
  destruct (own_property props "type") as [[| | | |t| |]|]; try done.
  cbn [default from_option id strictly_equals_string]. f_equal.
  apply String.eqb_neq. congruence.
Qed.

Lemma has_type_same props type :
  own_property props "type" = Some (VStr type) → has_type (VObj props) type = Normal true.
Proof.
  intros Hp. unfold has_type. cbn [ToBoolean Get]. rewrite Hp.
  cbn [default from_option id strictly_equals_string]. by rewrite String.eqb_refl.
Qed.

(** X6.  A message whose [data] is not an object with [type] "TEST_CONNECTION"
    or "TEST_LOG" (a null or primitive [data], an object without [type], an
    unknown type) is ignored in both versions: the listener writes the
    message to the console and does nothing else; no log is relayed. *)
Theorem message_unknown_ignored data h s :
  (∀ props, data = VObj props →
     own_property props "type" ≠ Some (VStr "TEST_CONNECTION")
     ∧ own_property props "type" ≠ Some (VStr "TEST_LOG")) →
  V3.on_message data h s
  = (Normal (),
     add_trace [ConsoleLog [AVal (VStr "📨 Service Worker received message:"); AVal data]] s)
  ∧ V4.on_message data h s
    = (Normal (),
       add_trace [ConsoleLog [AVal (VStr "📨 Service Worker received message:"); AVal data]] s).
Proof.
  intros Hno.
  assert (Hc : has_type data "TEST_CONNECTION" = Normal false).
  { apply has_type_other. intros props Hp. by destruct (Hno props Hp). }
  assert (Hl : has_type data "TEST_LOG" = Normal false).
  { apply has_type_other. intros props Hp. by destruct (Hno props Hp). }
  unfold V3.on_message, V4.on_message. split; mrun; rewrite Hc; mrun; rewrite Hl; by mrun.
Qed.

Lemma message_unknown_ignored_witness :
  V3.on_message (VObj [("type", VStr "PING")]) quiet_host empty_state
  = (Normal (),
     add_trace [ConsoleLog [AVal (VStr "📨 Service Worker received message:");
                            AVal (VObj [("type", VStr "PING")])]] empty_state)
  ∧ V4.on_message (VObj [("type", VStr "PING")]) quiet_host empty_state
    = (Normal (),
       add_trace [ConsoleLog [AVal (VStr "📨 Service Worker received message:");
                              AVal (VObj [("type", VStr "PING")])]] empty_state).
Proof.
  apply (message_unknown_ignored (VObj [("type", VStr "PING")]) quiet_host empty_state).
  intros props [= <-]. split; discriminate.
Defined.

(** X7.  A message of type "TEST_CONNECTION" makes the listener relay one
    success-level log, a message of type "TEST_LOG" two logs, a success-level
    one and then an info-level one; in both versions, and the listener
    completes normally. *)
Theorem message_test_replies props h s :
  (own_property props "type" = Some (VStr "TEST_CONNECTION") →
     log_events (effects (V3.on_message (VObj props)) h s)
     = [("success", "✅ Service Worker connection verified", VNull)]
     ∧ log_events (effects (V4.on_message (VObj props)) h s)
       = [("success", "✅ Service Worker connection verified", VNull)]
     ∧ completion (V3.on_message (VObj props)) h s = Normal ()
     ∧ completion (V4.on_message (VObj props)) h s = Normal ())
  ∧ (own_property props "type" = Some (VStr "TEST_LOG") →
       log_events (effects (V3.on_message (VObj props)) h s)
       = [("success", "🧪 Service Worker test message received", VNull);
          ("info", "📊 Service Worker is functioning correctly", VNull)]
       ∧ log_events (effects (V4.on_message (VObj props)) h s)
         = [("success", "🧪 Service Worker test message received", VNull);
            ("info", "📊 Service Worker is functioning correctly", VNull)]
       ∧ completion (V3.on_message (VObj props)) h s = Normal ()
       ∧ completion (V4.on_message (VObj props)) h s = Normal ()).
Proof.
  split; intros Hp.
  - pose proof (has_type_same _ _ Hp) as Hc.
    unfold effects, completion, V3.on_message, V4.on_message.
    prun. rewrite Hc. prun. sproj. rewrite !drop_app_length.
    change (?a :: ?l) with ([a] ++ l)%list.
    by rewrite !log_events_app, V3_relay_logs, V4_relay_logs.
  - assert (Hc : has_type (VObj props) "TEST_CONNECTION" = Normal false).
    { apply has_type_other. intros props' [= <-]. by rewrite Hp. }
    pose proof (has_type_same _ _ Hp) as Hl.
    unfold effects, completion, V3.on_message, V4.on_message.
    prun. rewrite Hc. prun. rewrite Hl. prun. sproj. rewrite !drop_app_length.
    change (?a :: ?l) with ([a] ++ l)%list.
    by rewrite !log_events_app, !V3_relay_logs, !V4_relay_logs.
Qed.

Lemma message_test_replies_witness :
  log_events (effects (V3.on_message (VObj [("type", VStr "TEST_LOG")])) quiet_host empty_state)
  = [("success", "🧪 Service Worker test message received", VNull);
     ("info", "📊 Service Worker is functioning correctly", VNull)].
Proof.
  exact (proj1 (proj2 (message_test_replies [("type", VStr "TEST_LOG")] quiet_host empty_state)
                  eq_refl)).
Defined.

(** * More about the push pipeline *)

Lemma V3_prologue_logs event h :
  log_events (V3_prologue event h)
  = ([("info", "🔔 Push notification received", VNull);
      ("info", "🔒 Permission: " +:+ h_permission h, VNull)] ++ decode_logs event)%list.
Proof.
  unfold V3_prologue. rewrite !log_events_app, !V3_relay_logs.
  by rewrite relay_all_logs by (intros; apply V3_relay_logs).
Qed.

Lemma V4_prologue_logs event h :
  log_events (V4_prologue event h)
  = ([("success", "🚨 CRITICAL: Push event fired on service worker!", VNull);
      ("info", "🔔 Push notification received", VNull);
      ("info", "🔒 Permission: " +:+ h_permission h, VNull)] ++ decode_logs event)%list.
Proof.
  unfold V4_prologue. rewrite !log_events_app, !V4_relay_logs.
  by rewrite relay_all_logs by (intros; apply V4_relay_logs).
Qed.

(** X8.  The log events of a push, in order, once the fields are derived.  In
    [src/public/sw.js]: "received", the permission, the events of the decode
    tier taken, "attempting" with the derived title and body, then the events
    of the render attempt (success, or the failure with its detail followed
    by the outcome of the fallback).  In [src/unnamed/part_000] a "CRITICAL"
    success event comes first and the outcome of the test notification comes
    before the events of the render attempt. *)
Theorem push_log_sequence event h s title options :
  V3.derive (payload_of event) = Normal (title, options) →
  log_events (effects (V3.on_push event) h s)
  = ([("info", "🔔 Push notification received", VNull);
      ("info", "🔒 Permission: " +:+ h_permission h, VNull)]
     ++ decode_logs event
     ++ [("info", "📱 Attempting to show notification", attempt_log title options)]
     ++ render_logs "✅ Notification shown successfully!" "❌ showNotification failed"
          h (s_notifs s))%list
  ∧ log_events (effects (V4.on_push event) h s)
    = ([("success", "🚨 CRITICAL: Push event fired on service worker!", VNull);
        ("info", "🔔 Push notification received", VNull);
        ("info", "🔒 Permission: " +:+ h_permission h, VNull)]
       ++ decode_logs event
       ++ [("info", "📱 Attempting to show notification", attempt_log title options)]
       ++ debug_logs h (s_notifs s)
       ++ render_logs "✅ Main notification shown successfully!" "❌ Main showNotification failed"
            h (S (s_notifs s)))%list.
Proof.
  intros Hd. unfold effects. split.
  - rewrite V3_on_push_run, Hd. cbn [snd]. unfold V3_render_state, render_logs, fallback_logs.
    sproj.
    destruct (h_notify h (s_notifs s)); [destruct (h_notify h (S (s_notifs s)))|]; sproj;
      rewrite <- !app_assoc, drop_app_length, !log_events_app, V3_prologue_logs,
        !V3_relay_logs; cbn [log_events omap app]; by rewrite <- ?app_assoc.
  - change (V3.derive (payload_of event)) with (V4.derive (payload_of event)) in Hd.
    rewrite V4_on_push_run, Hd. cbn [snd].
    unfold V4_render_state, V4_main_state, V4_debug_state, debug_logs, render_logs,
      fallback_logs. sproj.
    destruct (h_notify h (s_notifs s)); sproj;
      (destruct (h_notify h (S (s_notifs s))); [destruct (h_notify h (S (S (s_notifs s))))|]);
      sproj;
      rewrite <- !app_assoc, drop_app_length, !log_events_app, V4_prologue_logs,
        !V4_relay_logs; cbn [log_events omap app]; by rewrite <- ?app_assoc.
Qed.

Lemma push_log_sequence_witness :
  log_events (effects (V3.on_push event_no_payload) host_renders_rejected empty_state)
  = [("info", "🔔 Push notification received", VNull);
     ("info", "🔒 Permission: denied", VNull);
     ("warning", "⚠️ No data in push event", VNull);
     ("info", "📱 Attempting to show notification",
      VObj [("title", default_title); ("body", default_body)]);
     ("error", "❌ showNotification failed", error_detail NotAllowedError "denied");
     ("error", "❌ Even fallback notification failed", VStr (message NotAllowedError))].
Proof.
  exact (proj1 (push_log_sequence event_no_payload host_renders_rejected empty_state
                  default_title (notification_options default_body (VObj [])) eq_refl)).
Defined.

Lemma V3_render_fallback_witness :
  render_requests (effects (V3.on_push event_no_payload) host_renders_rejected empty_state)
  = [(default_title, notification_options default_body (VObj []));
     (VStr "Medication Reminder", V3.fallback_options)].
Proof.
  exact (proj1 (proj2 (proj2
           (V3_render_fallback event_no_payload host_renders_rejected empty_state
              default_title (notification_options default_body (VObj []))
              NotAllowedError eq_refl eq_refl)))).
Defined.

Lemma V4_render_fallback_witness :
  render_calls (V4.on_push event_no_payload) host_renders_rejected empty_state = 3.
Proof.
  exact (proj1 (proj2
           (V4_render_fallback event_no_payload host_renders_rejected empty_state
              default_title (notification_options default_body (VObj []))
              NotAllowedError eq_refl eq_refl))).
Defined.

(** X11.  A payload whose JSON is [null] makes the push listener fail, in
    both versions: the parse succeeds and is logged, reading [data.title]
    throws a TypeError, the promise handed to [waitUntil] is rejected, no
    render call is made and nothing is displayed. *)
Theorem push_null_payload_rejects h s d :
  pmd_json d = Normal VNull →
  let event := mkPushEvent (Some d) in
  ((∃ text, completion (V3.on_push event) h s = Throw (mkError "TypeError" text))
   ∧ render_calls (V3.on_push event) h s = 0
   ∧ displayed (V3.on_push event) h s = []
   ∧ LogEvent "success" "📦 Successfully parsed push data" VNull
       ∈ effects (V3.on_push event) h s)
  ∧ ((∃ text, completion (V4.on_push event) h s = Throw (mkError "TypeError" text))
     ∧ render_calls (V4.on_push event) h s = 0
     ∧ displayed (V4.on_push event) h s = []
     ∧ LogEvent "success" "📦 Successfully parsed push data" VNull
         ∈ effects (V4.on_push event) h s).
Proof.
  intros Hj event.
  assert (Hp : payload_of event = VNull) by (unfold payload_of, event; cbn; by rewrite Hj).
  assert (Hl : decode_logs event = [("success", "📦 Successfully parsed push data", VNull)])
    by (unfold decode_logs, event; cbn; by rewrite Hj).
  unfold completion, render_calls, displayed, effects.
  rewrite V3_on_push_run, V4_on_push_run, Hp. cbn [V3.derive V4.derive Get fst snd]. sproj.
  rewrite !drop_app_length, !drop_all.
  split; (split; [by eexists|split; [lia|split; [done|]]]).
  - unfold V3_prologue. rewrite Hl, !elem_of_app. right; right. cbn. rewrite app_nil_r.
    apply V3_relay_log.
  - unfold V4_prologue. rewrite Hl, !elem_of_app. do 4 right. cbn. rewrite app_nil_r.
    apply V4_relay_log.
Qed.

Lemma push_null_payload_rejects_witness :
  render_calls (V3.on_push (mkPushEvent (Some data_null))) quiet_host empty_state = 0
  ∧ displayed (V3.on_push (mkPushEvent (Some data_null))) quiet_host empty_state = [].
Proof.
  pose proof (push_null_payload_rejects quiet_host empty_state data_null eq_refl) as H.
  exact (conj (proj1 (proj2 (proj1 H))) (proj1 (proj2 (proj2 (proj1 H))))).
Defined.

Lemma derive_total data :
  data ≠ VNull → data ≠ VUndefined → ∃ title options, V3.derive data = Normal (title, options).
Proof.
  intros Hn Hu. destruct data; try done; unfold V3.derive; cbn [Get]; eauto.
Qed.

(** X12.  Only a null payload makes the push listener fail: for every other
    event (no payload, text, unreadable data, any JSON value but [null]) the
    promise handed to [waitUntil] is fulfilled, in both versions, whatever
    the host answers to the render calls and to the relay. *)
Theorem push_completes_unless_null event h s :
  (∀ d, pe_data event = Some d →
        pmd_json d ≠ Normal VNull ∧ pmd_json d ≠ Normal VUndefined) →
  completion (V3.on_push event) h s = Normal ()
  ∧ completion (V4.on_push event) h s = Normal ().
Proof.
  intros Hd.
  assert (Hp : payload_of event ≠ VNull ∧ payload_of event ≠ VUndefined).
  { unfold payload_of. destruct (pe_data event) as [d|]; [|done].
    destruct (Hd d eq_refl) as [Hn Hu].
    destruct (pmd_json d) as [v|]; [split; congruence|].
    by destruct (pmd_text d). }
  destruct (derive_total _ (proj1 Hp) (proj2 Hp)) as (title & options & Hder).
  split.
  - by destruct (V3_push_spec event h s _ _ Hder) as [? _].
  - by destruct (V4_push_spec event h s _ _ Hder) as [? _].
Qed.

Lemma push_completes_unless_null_witness :
  completion (V3.on_push (mkPushEvent (Some data_unreadable))) host_renders_rejected empty_state
  = Normal ()
  ∧ completion (V4.on_push (mkPushEvent (Some data_unreadable))) host_renders_rejected
      empty_state = Normal ().
Proof.
  apply (push_completes_unless_null (mkPushEvent (Some data_unreadable))
           host_renders_rejected empty_state).
  intros d [= <-]. split; discriminate.
Defined.

(** X13.  A JSON payload that is neither an object nor [null] (a string, a
    number, a boolean, an array) has no [title], [body] or [data]: the
    listener requests the notification with the default title, the default
    body and an empty data object, in both versions, and that notification
    is displayed when the host accepts the request. *)
Theorem push_non_object_payload_defaults h s d v :
  pmd_json d = Normal v →
  v ≠ VNull → v ≠ VUndefined → (∀ props, v ≠ VObj props) →
  let event := mkPushEvent (Some d) in
  (ShowNotification default_title (notification_options default_body (VObj []))
     ∈ effects (V3.on_push event) h s
   ∧ (h_notify h (s_notifs s) = None →
      displayed (V3.on_push event) h s
      = [(default_title, notification_options default_body (VObj []))]))
  ∧ (ShowNotification default_title (notification_options default_body (VObj []))
       ∈ effects (V4.on_push event) h s
     ∧ (h_notify h (S (s_notifs s)) = None →
        displayed (V4.on_push event) h s
        = (V4_debug_displayed h s
             ++ [(default_title, notification_options default_body (VObj []))])%list)).
Proof.
  intros Hj Hn Hu Ho event.
  assert (Hd : V3.derive (payload_of event)
               = Normal (default_title, notification_options default_body (VObj []))).
  { unfold payload_of, event. cbn [pe_data]. rewrite Hj.
    destruct v as [| | | | | |props]; try done. by destruct (Ho props). }
  split.
  - by destruct (V3_push_spec event h s _ _ Hd) as (_ & _ & Hshow & Hdisp).
  - by destruct (V4_push_spec event h s _ _ Hd) as (_ & _ & Hshow & Hdisp).
Qed.

Lemma push_non_object_payload_defaults_witness :
  displayed (V3.on_push (mkPushEvent (Some data_json_string))) quiet_host empty_state
  = [(default_title, notification_options default_body (VObj []))].
Proof.
  exact (proj2 (proj1 (push_non_object_payload_defaults quiet_host empty_state
                         data_json_string (VStr "ping") eq_refl
                         ltac:(discriminate) ltac:(discriminate)
                         ltac:(intros props; discriminate))) eq_refl).
Defined.

(** X14.  A payload of which neither [json()] nor [text()] can be read: both
    failures are logged at error level with the message of the error, the
    payload becomes the empty object, and the listener requests the
    notification with the default title and body, in both versions. *)
Theorem push_unreadable_payload_defaults h s d e textError :
  pmd_json d = Throw e →
  pmd_text d = Throw textError →
  let event := mkPushEvent (Some d) in
  (completion (V3.decode event) h s = Normal (VObj [])
   ∧ LogEvent "error" "❌ Failed to parse JSON" (VStr (message e))
       ∈ effects (V3.on_push event) h s
   ∧ LogEvent "error" "❌ Failed to parse text" (VStr (message textError))
       ∈ effects (V3.on_push event) h s
   ∧ ShowNotification default_title (notification_options default_body (VObj []))
       ∈ effects (V3.on_push event) h s)
  ∧ (completion (V4.decode event) h s = Normal (VObj [])
     ∧ LogEvent "error" "❌ Failed to parse JSON" (VStr (message e))
         ∈ effects (V4.on_push event) h s
     ∧ LogEvent "error" "❌ Failed to parse text" (VStr (message textError))
         ∈ effects (V4.on_push event) h s
     ∧ ShowNotification default_title (notification_options default_body (VObj []))
         ∈ effects (V4.on_push event) h s).
Proof.
  intros Hj Ht event.
  assert (Hp : payload_of event = VObj []).
  { unfold payload_of, event. cbn [pe_data]. by rewrite Hj, Ht. }
  assert (Hl : decode_logs event
               = [("error", "❌ Failed to parse JSON", VStr (message e));
                  ("error", "❌ Failed to parse text", VStr (message textError))]).
  { unfold decode_logs, event. cbn [pe_data]. by rewrite Hj, Ht. }
  assert (Hd : V3.derive (payload_of event)
               = Normal (default_title, notification_options default_body (VObj []))).
  { by rewrite Hp. }
  split.
  - destruct (V3_push_spec event h s _ _ Hd) as (_ & Hlog & Hshow & _).
    split; [unfold completion; by rewrite V3_decode_run, Hp|].
    split; [|split; [|done]].
    + apply (Hlog ("error", "❌ Failed to parse JSON", VStr (message e))).
      rewrite Hl. apply elem_of_cons. by left.
    + apply (Hlog ("error", "❌ Failed to parse text", VStr (message textError))).
      rewrite Hl. apply elem_of_cons. right. apply elem_of_cons. by left.
  - destruct (V4_push_spec event h s _ _ Hd) as (_ & Hlog & Hshow & _).
    split; [unfold completion; by rewrite V4_decode_run, Hp|].
    split; [|split; [|done]].
    + apply (Hlog ("error", "❌ Failed to parse JSON", VStr (message e))).
      rewrite Hl. apply elem_of_cons. by left.
    + apply (Hlog ("error", "❌ Failed to parse text", VStr (message textError))).
      rewrite Hl. apply elem_of_cons. right. apply elem_of_cons. by left.
Qed.

Lemma push_unreadable_payload_defaults_witness :
  completion (V3.decode (mkPushEvent (Some data_unreadable))) quiet_host empty_state
  = Normal (VObj []).
Proof.
  exact (proj1 (proj1 (push_unreadable_payload_defaults quiet_host empty_state
                         data_unreadable SyntaxError DecodeError eq_refl eq_refl))).
Defined.

(** X15.  What a push never does, in both versions and for every event, host
    and state: it leaves the cache storage as it is and makes no network
    fetch.  The listener of [src/public/sw.js] makes at most two render calls
    and gets at most one notification displayed; the one of
    [src/unnamed/part_000] at most three and two. *)
Theorem push_leaves_storage_alone event h s :
  (s_caches (V3.on_push event h s).2 = s_caches s
   ∧ network_calls (V3.on_push event) h s = 0
   ∧ (render_calls (V3.on_push event) h s ≤ 2)%nat
   ∧ (length (displayed (V3.on_push event) h s) ≤ 1)%nat)
  ∧ (s_caches (V4.on_push event h s).2 = s_caches s
     ∧ network_calls (V4.on_push event) h s = 0
     ∧ (render_calls (V4.on_push event) h s ≤ 3)%nat
     ∧ (length (displayed (V4.on_push event) h s) ≤ 2)%nat).
Proof.
  unfold network_calls, render_calls, displayed. split.
  - rewrite V3_on_push_run.
    destruct (V3.derive (payload_of event)) as [[title options]|e]; cbn [snd].
    + unfold V3_render_state. sproj.
      destruct (h_notify h (s_notifs s)); [destruct (h_notify h (S (s_notifs s)))|]; sproj;
        rewrite ?drop_app_length, ?drop_all; cbn [length]; repeat split; lia.
    + sproj. rewrite drop_all. cbn [length]. repeat split; lia.
  - rewrite V4_on_push_run.
    destruct (V4.derive (payload_of event)) as [[title options]|e]; cbn [snd].
    + unfold V4_render_state, V4_main_state, V4_debug_state. sproj.
      destruct (h_notify h (s_notifs s)); sproj;
        (destruct (h_notify h (S (s_notifs s))); [destruct (h_notify h (S (S (s_notifs s))))|]);
        sproj; rewrite <- ?app_assoc, ?drop_app_length, ?drop_all; cbn [length app];
        repeat split; lia.
    + sproj. rewrite drop_all. cbn [length]. repeat split; lia.
Qed.

(** * More about activation *)

Lemma promise_all_cons {A} (p : M A) (ps : list (M A)) h s :
  promise_all (p :: ps) h s
  = (let '(r, s1) := p h s in
     let '(rs, s2) := promise_all ps h s1 in
     (match r, rs with
      | Normal a, Normal l => Normal (a :: l)
      | Throw e, _ => Throw e
      | Normal _, Throw e => Throw e
      end, s2)).
Proof. reflexivity. Qed.

(** The deletions of the activate listener in general: a bucket stays when it
    bears the current name, was not listed, or its deletion was rejected; the
    combined promise is fulfilled exactly when no deletion was rejected. *)
Lemma prune_gen CACHE_NAME names h s :
  ∃ r,
    promise_all
      ((λ cacheName,
          if bool_decide (cacheName ≠ CACHE_NAME)
          then (b ← caches_delete cacheName; mret (VBool b))
          else mret VUndefined) <$> names) h s
    = (r, set_caches
            (filter (λ p, p.1 = CACHE_NAME ∨ p.1 ∉ names ∨ is_Some (h_cache_delete h p.1))
               (s_caches s)) s)
    ∧ ((∃ vs, r = Normal vs)
       ↔ ∀ n, n ∈ names → n ≠ CACHE_NAME → h_cache_delete h n = None).
Proof.
  revert s. induction names as [|n names IH]; intros s.
  - exists (Normal []). split.
    + cbn. rewrite filter_all; [by rewrite set_caches_id|].
      intros p. right. left. apply not_elem_of_nil.
    + split; [intros _ n Hn; by apply elem_of_nil in Hn|by eexists].
  - rewrite fmap_cons, promise_all_cons.
    case_bool_decide as Hn.
    + rewrite bind_run. unfold caches_delete at 1.
      destruct (h_cache_delete h n) as [e|] eqn:Hdel.
      * destruct (IH s) as (r & Hrun & Hr). exists (Throw e). rewrite Hrun. split.
        -- cbn beta iota zeta. do 2 f_equal. apply list_filter_iff. intros p.
           rewrite not_elem_of_cons. destruct (decide (p.1 = n)) as [->|]; [|tauto].
           split; intros _; right; right; by rewrite Hdel.
        -- split; [by intros [vs ?]|]. intros Hall.
           rewrite (Hall n) in Hdel; [done|apply elem_of_cons; by left|done].
      * rewrite ret_run.
        destruct (IH (set_caches (filter (λ p, p.1 ≠ n) (s_caches s)) s)) as (r & Hrun & Hr).
        exists (match r with Normal l => Normal (VBool (has_bucket n (s_caches s)) :: l)
                           | Throw e => Throw e end).
        rewrite Hrun. split.
        -- cbn beta iota zeta. unfold set_caches. sproj. do 2 f_equal.
           rewrite list_filter_filter. apply list_filter_iff. intros p.
           rewrite not_elem_of_cons. destruct (decide (p.1 = n)) as [Heq|]; [|tauto].
           rewrite Heq, Hdel. split; [tauto|].
           intros [?|[[? _]|[? ?]]]; congruence.
        -- split.
           ++ intros [vs Hvs] n' [->|Hin]%elem_of_cons Hne; [done|].
              apply Hr; [|done|done]. destruct r; [by eexists|done].
           ++ intros Hall. destruct (proj2 Hr) as [vs ->]; [|by eexists].
              intros n' Hin. apply Hall, elem_of_cons. by right.
    + subst n. rewrite ret_run. destruct (IH s) as (r & Hrun & Hr).
      exists (match r with Normal l => Normal (VUndefined :: l) | Throw e => Throw e end).
      rewrite Hrun. split.
      * cbn beta iota zeta. do 2 f_equal. apply list_filter_iff. intros p.
        rewrite not_elem_of_cons. destruct (decide (p.1 = CACHE_NAME)); tauto.
      * split.
        -- intros [vs Hvs] n' [->|Hin]%elem_of_cons Hne; [done|].
           apply Hr; [|done|done]. destruct r; [by eexists|done].
        -- intros Hall. destruct (proj2 Hr) as [vs ->]; [|by eexists].
           intros n' Hin. apply Hall, elem_of_cons. by right.
Qed.

Lemma activate_keys_rejected CACHE_NAME h s e :
  h_cache_keys h = Some e →
  on_activate CACHE_NAME h s
  = (Throw e,
     add_trace [ConsoleLog [AVal (VStr "🔄 Service Worker activated")]; ClientsClaim] s).
Proof. intros Hk. unfold on_activate, caches_keys. mrun. rewrite Hk. by mrun. Qed.

Lemma activate_gen CACHE_NAME h s :
  h_cache_keys h = None →
  ∃ r : Completion (list value),
    ((∃ vs, r = Normal vs)
     ↔ ∀ n, n ∈ (s_caches s).*1 → n ≠ CACHE_NAME → h_cache_delete h n = None)
    ∧ on_activate CACHE_NAME h s
      = let st := set_caches
                    (filter (λ p, p.1 = CACHE_NAME ∨ p.1 ∉ (s_caches s).*1
                                  ∨ is_Some (h_cache_delete h p.1)) (s_caches s))
                    (add_trace [ConsoleLog [AVal (VStr "🔄 Service Worker activated")];
                                ClientsClaim] s) in
        match r with
        | Normal _ =>
            (Normal (),
             add_trace [ConsoleLog [AVal (VStr "🧹 Cache cleanup complete")];
                        SetTimeout "sendInitialLog" 1000] st)
        | Throw e => (Throw e, st)
        end.
Proof.
  intros Hk. unfold on_activate, caches_keys. mrun. rewrite Hk. sproj. mrun.
  destruct (prune_gen CACHE_NAME (s_caches s).*1 h
              (add_trace [ConsoleLog [AVal (VStr "🔄 Service Worker activated")];
                          ClientsClaim] s)) as (r & Hrun & Hr).
  exists r. split; [done|]. rewrite Hrun. cbn zeta. destruct r; by mrun.
Qed.

(** X16.  What activation never does, whatever the host answers: it never
    deletes or alters a bucket that bears the current name, it creates no
    bucket (every bucket left was there before, with the same content), and
    it makes no network fetch. *)
Theorem activate_keeps_current_bucket CACHE_NAME h s :
  let after := s_caches (on_activate CACHE_NAME h s).2 in
  filter (λ p, p.1 = CACHE_NAME) after = filter (λ p, p.1 = CACHE_NAME) (s_caches s)
  ∧ (∀ p, p ∈ after → p ∈ s_caches s)
  ∧ network_calls (on_activate CACHE_NAME) h s = 0.
Proof.
  intros after. subst after. unfold network_calls.
  destruct (h_cache_keys h) as [e|] eqn:Hk.
  - rewrite (activate_keys_rejected _ _ _ _ Hk). cbn [snd]. sproj. repeat split; [done|lia].
  - destruct (activate_gen CACHE_NAME h s Hk) as (r & _ & ->). cbn zeta.
    destruct r; cbn [snd]; sproj; (split; [|split; [|lia]]).
    + apply list_filter_filter_l. tauto.
    + by intros p [_ ?]%list_elem_of_filter.
    + apply list_filter_filter_l. tauto.
    + by intros p [_ ?]%list_elem_of_filter.
Qed.

(** X17.  When activation signals readiness.  The promise handed to
    [waitUntil] is fulfilled exactly when listing the buckets succeeds and no
    deletion of a stale bucket is rejected; then the listener logs "Cache
    cleanup complete" and schedules [sendInitialLog] once, after 1000 ms.
    Otherwise the promise is rejected, and neither the log nor the timer
    happens. *)
Theorem activate_signals_readiness CACHE_NAME h s :
  (completion (on_activate CACHE_NAME) h s = Normal ()
   ↔ h_cache_keys h = None
     ∧ ∀ n, n ∈ (s_caches s).*1 → n ≠ CACHE_NAME → h_cache_delete h n = None)
  ∧ (completion (on_activate CACHE_NAME) h s = Normal () →
     effects (on_activate CACHE_NAME) h s
     = [ConsoleLog [AVal (VStr "🔄 Service Worker activated")]; ClientsClaim;
        ConsoleLog [AVal (VStr "🧹 Cache cleanup complete")];
        SetTimeout "sendInitialLog" 1000])
  ∧ (completion (on_activate CACHE_NAME) h s ≠ Normal () →
     effects (on_activate CACHE_NAME) h s
     = [ConsoleLog [AVal (VStr "🔄 Service Worker activated")]; ClientsClaim]).
Proof.
  unfold completion, effects. destruct (h_cache_keys h) as [e|] eqn:Hk.
  - rewrite (activate_keys_rejected _ _ _ _ Hk). cbn [fst snd]. sproj.
    rewrite drop_app_length. split; [|split; [done|done]].
    split; [done|]. by intros [? _].
  - destruct (activate_gen CACHE_NAME h s Hk) as (r & Hr & ->). cbn zeta.
    destruct r as [vs|e]; cbn [fst snd]; sproj; rewrite <- ?app_assoc, drop_app_length.
    + split; [|split; [done|done]]. split; [|done]. intros _. split; [done|].
      apply Hr. by eexists.
    + split; [|split; [done|done]]. split; [done|]. intros [_ Hall].
      by destruct (proj2 Hr Hall).
Qed.

Lemma activate_signals_readiness_witness :
  effects (on_activate V4.CACHE_NAME) host_delete_rejected state_three_buckets
  = [ConsoleLog [AVal (VStr "🔄 Service Worker activated")]; ClientsClaim].
Proof.
  exact (proj2 (proj2 (activate_signals_readiness V4.CACHE_NAME host_delete_rejected
                         state_three_buckets))
           ltac:(discriminate)).
Defined.

(** X18.  A rejected deletion does not stop the others: when listing the
    buckets succeeds, every bucket with another name than the current one
    whose own deletion is not rejected is gone after activation, even when
    the deletion of some other bucket is rejected. *)
Theorem activate_deletes_despite_failures CACHE_NAME h s n :
  h_cache_keys h = None →
  n ≠ CACHE_NAME →
  h_cache_delete h n = None →
  n ∉ (s_caches (on_activate CACHE_NAME h s).2).*1.
Proof.
  intros Hk Hne Hdel Hin.
  destruct (activate_gen CACHE_NAME h s Hk) as (r & _ & Hrun). rewrite Hrun in Hin.
  cbn zeta in Hin.
  assert (Hin' : n ∈ (filter (λ p, p.1 = CACHE_NAME ∨ p.1 ∉ (s_caches s).*1
                                   ∨ is_Some (h_cache_delete h p.1)) (s_caches s)).*1)
    by (by destruct r).
  apply list_elem_of_fmap in Hin' as (p & -> & Hp).
  apply list_elem_of_filter in Hp as [[?|[Hno|Hsome]] Hp]; [done| |].
  - apply Hno. apply list_elem_of_fmap. by exists p.
  - rewrite Hdel in Hsome. by destruct Hsome.
Qed.

Lemma activate_deletes_despite_failures_witness :
  h_cache_delete host_delete_rejected "medication-tracker-v2" = Some QuotaError
  ∧ "medication-tracker-v3"
      ∉ (s_caches (on_activate V4.CACHE_NAME host_delete_rejected state_three_buckets).2).*1.
Proof.
  split; [reflexivity|].
  exact (activate_deletes_despite_failures V4.CACHE_NAME host_delete_rejected
           state_three_buckets "medication-tracker-v3" eq_refl ltac:(discriminate) eq_refl).
Defined.

(** On that host the bucket whose deletion is rejected stays beside the
    current one, and the activation fails. *)
Example activate_with_rejected_deletion :
  (s_caches (on_activate V4.CACHE_NAME host_delete_rejected state_three_buckets).2).*1
  = ["medication-tracker-v2"; "medication-tracker-v4"]
  ∧ completion (on_activate V4.CACHE_NAME) host_delete_rejected state_three_buckets
    = Throw QuotaError.
Proof. by vm_compute. Qed.

(** * More about network interception *)

(** X21.  What the fetch listener never does, for every request, host and
    state: it never writes to the cache storage (a response fetched from the
    network is not stored), it shows no notification and posts no message, it
    contacts the network at most twice, and only for the URL of the
    request. *)
Theorem fetch_never_writes request h s :
  s_caches (on_fetch request h s).2 = s_caches s
  ∧ render_calls (on_fetch request) h s = 0
  ∧ (network_calls (on_fetch request) h s ≤ 2)%nat
  ∧ (∀ u, u ∈ fetched (effects (on_fetch request) h s) → u = request)
  ∧ posted (effects (on_fetch request) h s) = [].
Proof.
  unfold render_calls, network_calls, effects, on_fetch, caches_match, fetch. mrun.
  destruct (h_cache_match h) as [e|]; mrun.
  - cbn [snd]. sproj. rewrite <- app_assoc, drop_app_length.
    repeat split; [lia|lia|].
    intros u [->|Hin]%elem_of_cons; [done|by apply elem_of_nil in Hin].
  - destruct (first_match request (s_caches s)) as [cached|]; mrun.
    + cbn [snd]. rewrite drop_all. repeat split; [lia|lia|].
      intros u Hin. by apply elem_of_nil in Hin.
    + destruct (h_net h (s_fetches s) request) as [response|e]; mrun; cbn [snd]; sproj;
        rewrite <- ?app_assoc, drop_app_length; (repeat split; [lia|lia|]).
      * intros u [->|Hin]%elem_of_cons; [done|by apply elem_of_nil in Hin].
      * intros u [->|[->|Hin]%elem_of_cons]%elem_of_cons; [done|done|].
        by apply elem_of_nil in Hin.
Qed.


Lemma fetch_miss_answered_witness :
  completion (on_fetch "https://app.example/api/doses") quiet_host empty_state
  = Normal ok_page
  ∧ effects (on_fetch "https://app.example/api/doses") quiet_host empty_state
    = [NetFetch "https://app.example/api/doses"].
Proof.
  exact (fetch_miss_answered "https://app.example/api/doses" ok_page quiet_host empty_state
           eq_refl eq_refl eq_refl).
Defined.

Lemma fetch_lookup_failure_witness :
  completion (on_fetch "https://app.example/") host_cache_broken state_three_buckets
  = Normal ok_page
  ∧ effects (on_fetch "https://app.example/") host_cache_broken state_three_buckets
    = [ConsoleError [AVal (VStr "Cache lookup failed:"); AErr CacheError];
       NetFetch "https://app.example/"].
Proof.
  exact (fetch_lookup_failure "https://app.example/" CacheError host_cache_broken
           state_three_buckets eq_refl).
Defined.

Lemma fetch_miss_refetched_witness :
  completion (on_fetch "https://app.example/api/doses") host_offline empty_state
  = Throw FailedToFetch
  ∧ effects (on_fetch "https://app.example/api/doses") host_offline empty_state
    = [NetFetch "https://app.example/api/doses";
       ConsoleError [AVal (VStr "Network fetch failed:"); AErr FailedToFetch];
       ConsoleError [AVal (VStr "Cache lookup failed:"); AErr FailedToFetch];
       NetFetch "https://app.example/api/doses"].
Proof.
  exact (fetch_miss_refetched "https://app.example/api/doses" FailedToFetch host_offline
           empty_state eq_refl eq_refl eq_refl).
Defined.

(** * More about notification clicks *)

(** X26.  The click listener never fails and does one thing: it closes the
    notification, then focuses the first window client whose URL includes the
    worker's origin or, without one, opens [/overview], never both.  An error
    is handed to [console.error] exactly when the host rejects that one call:
    the focus of the chosen client, or the opening of the window, and nothing
    follows it.  When the enumeration of the clients is rejected, that is
    logged and nothing is focused or opened. *)
Theorem click_never_fails h s :
  completion on_notificationclick h s = Normal ()
  ∧ effects on_notificationclick h s
    = NotificationClose ::
      match h_matchAll h with
      | Some e => [ConsoleError [AVal (VStr "Failed to handle notification click:"); AErr e]]
      | None =>
          match head (filter (λ c, includes (cl_url c) (h_origin h) = true)
                        (filter (λ c, cl_type c = window ∧ (true || cl_controlled c))
                           (h_clients h))) with
          | Some c =>
              Focus (cl_id c) ::
              match cl_focus c with
              | Some e =>
                  [ConsoleError
                     [AVal (VStr "Failed to handle notification click:"); AErr e]]
              | None => []
              end
          | None =>
              OpenWindow "/overview" ::
              match h_openWindow h with
              | Some e =>
                  [ConsoleError
                     [AVal (VStr "Failed to handle notification click:"); AErr e]]
              | None => []
              end
          end
      end
  ∧ ∀ c, Focus (cl_id c) ∈ effects on_notificationclick h s →
         ∃ c', c' ∈ h_clients h ∧ cl_id c' = cl_id c ∧ cl_type c' = window
               ∧ includes (cl_url c') (h_origin h) = true.
Proof.
  split; [|split].
  - unfold completion. by rewrite click_run.
  - by rewrite click_effects_run.
  - intros c Hin. rewrite click_effects_run in Hin.
    apply click_focus_is_target in Hin as (c' & Hc' & Hid).
    apply click_target_matches in Hc' as (? & ? & ?). by exists c'.
Qed.

Lemma click_opens_window_witness :
  on_notificationclick host_no_window empty_state
  = (Normal (), add_trace [NotificationClose; OpenWindow "/overview"] empty_state).
Proof.
  exact (click_opens_window host_no_window empty_state eq_refl
           ltac:(apply Forall_nil_2) eq_refl).
Defined.

Lemma click_focuses_first_witness :
  on_notificationclick host_two_windows empty_state
  = (Normal (), add_trace [NotificationClose; Focus 5] empty_state).
Proof.
  exact (click_focuses_first host_two_windows empty_state []
           (tab 5 "https://app.example/overview" false)
           [tab 6 "https://app.example/settings" true]
           eq_refl eq_refl ltac:(apply Forall_nil_2) eq_refl eq_refl).
Defined.

(** * More about installation *)

Lemma fetch_all_run urls h s :
  promise_all
    ((λ u, (r ← fetch (h_origin h ++ u); mret (h_origin h ++ u, r)) : M (string * Response))
       <$> urls) h s
  = (fetched_entries h (s_fetches s) urls,
     mkState (s_caches s) (length urls + s_fetches s) (s_notifs s) (s_shown s)
       (s_trace s ++ ((λ u, NetFetch (h_origin h ++ u)) <$> urls))).
Proof.
  revert s. induction urls as [|u rest IH]; intros s.
  - cbn. destruct s. cbn. by rewrite app_nil_r.
  - rewrite fmap_cons, promise_all_cons, bind_run. unfold fetch at 1.
    cbn [fetched_entries].
    destruct (h_net h (s_fetches s) (h_origin h ++ u)) as [r|e]; rewrite ?ret_run, IH; sproj;
      cbn [fmap list_fmap length]; rewrite <- app_assoc, Nat.add_succ_r; cbn [app];
      by destruct (fetched_entries h (S (s_fetches s)) rest).
Qed.

Lemma addAll_run cacheName urls h s :
  let s1 := mkState (s_caches s) (length urls + s_fetches s) (s_notifs s) (s_shown s)
              (s_trace s ++ ((λ u, NetFetch (h_origin h ++ u)) <$> urls)) in
  cache_addAll cacheName urls h s
  = match fetched_entries h (s_fetches s) urls with
    | Normal entries =>
        if forallb (λ e : string * Response, r_storable e.2) entries
        then (Normal (), set_caches (put_all cacheName entries (s_caches s)) s1)
        else (Throw (mkError "TypeError" "Request failed"), s1)
    | Throw e => (Throw e, s1)
    end.
Proof.
  intros s1. unfold cache_addAll. mrun. rewrite fetch_all_run.
  destruct (fetched_entries h (s_fetches s) urls) as [entries|e]; [|done]. cbn [fst snd].
  by destruct (forallb _ entries).
Qed.


(** An answer that is not ok is not one that [cache.addAll] accepts. *)
Lemma answers_not_ok_not_storable answers :
  forallb answer_ok answers = false → forallb answer_storable answers = false.
Proof.
  induction answers as [|a rest IH]; cbn [forallb]; [done|].
  intros [Ha|Hrest]%andb_false_iff.
  - destruct a as [r|]; [|done]. cbn in *. unfold r_storable. by rewrite Ha.
  - rewrite IH by done. apply andb_false_r.
Qed.

Lemma fetched_entries_not_ok h n urls :
  forallb answer_storable (answers_from h n urls) = false →
  match fetched_entries h n urls with
  | Normal entries => forallb (λ e : string * Response, r_storable e.2) entries = false
  | Throw _ => True
  end.
Proof.
  revert n. induction urls as [|u rest IH]; intros n; cbn [answers_from fetched_entries forallb].
  - done.
  - intros [Ha|Hrest]%andb_false_iff.
    + destruct (h_net h n (h_origin h ++ u)) as [r0|]; [|done].
      destruct (fetched_entries h (S n) rest); [|done]. cbn in *. by rewrite Ha.
    + specialize (IH _ Hrest). destruct (h_net h n (h_origin h ++ u)) as [r0|]; [|done].
      destruct (fetched_entries h (S n) rest); [|done]. cbn. rewrite IH. apply andb_false_r.
Qed.

Lemma console_errors_app es1 es2 :
  console_errors (es1 ++ es2) = (console_errors es1 ++ console_errors es2)%list.
Proof. apply omap_app. Qed.

Lemma fetched_app es1 es2 : fetched (es1 ++ es2) = (fetched es1 ++ fetched es2)%list.
Proof. apply omap_app. Qed.

Lemma fetched_fetches (f : string → string) urls :
  fetched ((λ u, NetFetch (f u)) <$> urls) = f <$> urls.
Proof. induction urls as [|u rest IH]; [done|]. cbn. by rewrite <- IH. Qed.

Lemma console_errors_fetches (f : string → string) urls :
  console_errors ((λ u, NetFetch (f u)) <$> urls) = [].
Proof. induction urls as [|u rest IH]; [done|]. cbn. by rewrite <- IH. Qed.

(** X19.  The precache is all or nothing.  When the bucket can be opened and
    one of the three precache fetches fails or is answered with a response
    that is not ok, nothing is stored: the cache storage is what opening the
    bucket left (the bucket itself exists, with the content it had), although
    all three URLs were requested; the failure is logged once and the
    installation completes. *)
Theorem install_all_or_nothing CACHE_NAME h s :
  h_cache_open h = None →
  forallb answer_ok (answers_from h (s_fetches s) urlsToCache) = false →
  s_caches (on_install CACHE_NAME h s).2 = opened CACHE_NAME (s_caches s)
  ∧ fetched (effects (on_install CACHE_NAME) h s) = (λ u, h_origin h ++ u) <$> urlsToCache
  ∧ (∃ e, console_errors (effects (on_install CACHE_NAME) h s)
          = [[AVal (VStr "Cache installation failed:"); AErr e]])
  ∧ completion (on_install CACHE_NAME) h s = Normal ().
Proof.
  intros Hopen Hbad. apply answers_not_ok_not_storable, fetched_entries_not_ok in Hbad.
  unfold completion, effects, on_install, precache, caches_open. mrun. rewrite Hopen. mrun.
  rewrite addAll_run. cbn zeta.
  unfold opened. sproj.
  destruct (has_bucket CACHE_NAME (s_caches s)); sproj;
    (destruct (fetched_entries h (s_fetches s) urlsToCache) as [entries|e];
     [rewrite Hbad|]); mrun; cbn [fst snd]; sproj;
    rewrite <- ?app_assoc, drop_app_length;
    change (SkipWaiting :: ?l) with ([SkipWaiting] ++ l)%list;
    rewrite !fetched_app, !console_errors_app, fetched_fetches, console_errors_fetches;
    cbn [fetched console_errors omap app]; rewrite ?app_nil_r;
    repeat split; by eexists.
Qed.

Lemma install_all_or_nothing_witness :
  s_caches (on_install V3.CACHE_NAME host_flaky_network empty_state).2
  = [("medication-tracker-v3", ∅)]
  ∧ fetched (effects (on_install V3.CACHE_NAME) host_flaky_network empty_state)
    = ["https://app.example/"; "https://app.example/manifest.json";
       "https://app.example/navikinder-logo-256.png"].
Proof.
  pose proof (install_all_or_nothing V3.CACHE_NAME host_flaky_network empty_state
                eq_refl eq_refl) as H.
  exact (conj (proj1 H) (proj1 (proj2 H))).
Defined.







(** Partial responses are not stored: with a network that answers every
    request with status 206, the installation requests the three URLs, logs
    the failure of the precache, stores nothing and completes. *)
Example install_partial_answers :
  r_ok partial_page = true
  ∧ s_caches (on_install V4.CACHE_NAME host_partial_answers empty_state).2
    = [("medication-tracker-v4", ∅)]
  ∧ fetched (effects (on_install V4.CACHE_NAME) host_partial_answers empty_state)
    = ["https://app.example/"; "https://app.example/manifest.json";
       "https://app.example/navikinder-logo-256.png"]
  ∧ console_errors (effects (on_install V4.CACHE_NAME) host_partial_answers empty_state)
    = [[AVal (VStr "Cache installation failed:"); AErr (mkError "TypeError" "Request failed")]]
  ∧ completion (on_install V4.CACHE_NAME) host_partial_answers empty_state = Normal ().
Proof. by vm_compute. Qed.



(** An older bucket that holds the URL is found first: until activation has
    deleted it, a precached URL is served from the old version's bucket. *)
Example stale_bucket_served_first :
  let stale := mkResponse 200 "<!doctype html><title>old</title>" in
  let s := mkState [("medication-tracker-v2", {["https://app.example/" := stale]})] 0 0 [] [] in
  completion (on_fetch "https://app.example/") quiet_host
    (on_install V3.CACHE_NAME quiet_host s).2 = Normal stale
  ∧ completion (on_fetch "https://app.example/") quiet_host
      (on_activate V3.CACHE_NAME quiet_host (on_install V3.CACHE_NAME quiet_host s).2).2
    = Normal ok_page.
Proof. by vm_compute. Qed.
